(** * spegel.llm: a shallow embedding of [src/spegel/llm.py]

    The module is a thin layer over two vendor streaming SDKs.  It is
    embedded as follows.

    - Python [str] is [string]; a [str | None] value is [option string];
      truthiness ([if content], [if text], [if gemini_api_key]) is
      [truthy] / [truthy_opt].
    - The vendor chunk objects are records whose nullable attributes are
      options and whose sequences are lists, so that the attribute chain
      [chunk.candidates[0].content.parts[0].text] can fail the way Python
      fails (TypeError, IndexError, AttributeError).
    - The [logging] logger is a record (level, handlers) and every
      [logger.info] call returns the records it hands to the handlers.
    - An async generator is a state machine: one state per suspension
      point and a function [anext] which runs the body up to the next
      [yield], the end of the body, or an exception that leaves it.  What
      a resumption does to the outside world (vendor call, log record,
      [print]) is returned as a list of effects.
    - The vendor is a parameter: a function from the request to the finite
      list of chunks its stream delivers before it is exhausted.

    Outside the model: a vendor call that fails to open or breaks off in
    the middle (the module does not catch it), a consumer that abandons
    the generator or throws into it, [logging.disable], handlers of
    ancestor loggers, and the text of what [print] writes.  A whole call
    ([stream]) is consumed with the logger unchanged meanwhile; the
    step function [anext] takes the logger anew at every resumption. *)

From Stdlib Require Import ZArith Ascii String List Bool Lia QArith.
From stdpp Require Import gmap strings list.

Open Scope string_scope.
Open Scope list_scope.
Open Scope Z_scope.

(* ------------------------------------------------------------------ *)
(** ** Python values *)

Module Py.

(** Truthiness of a [str]: only the empty string is falsy. *)
Definition truthy (s : string) : bool :=
  match s with
  | EmptyString => false
  | String _ _ => true
  end.

(** Truthiness of a [str | None]. *)
Definition truthy_opt (o : option string) : bool :=
  match o with
  | None => false
  | Some s => truthy s
  end.

(** Truthiness of a list ([if collected], [if not logger.handlers]). *)
Definition nonempty {A} (l : list A) : bool :=
  match l with
  | [] => false
  | _ :: _ => true
  end.

(** ["".join(l)] *)
Definition join (l : list string) : string := String.concat "" l.

(** The exception classes the module can meet.  The last three derive
    from [BaseException] only, so [except Exception] lets them pass. *)
Inductive exn :=
| TypeError
| IndexError
| AttributeError
| NameError
| RuntimeError
| NotImplementedError
| KeyboardInterrupt
| GeneratorExit
| CancelledError.

Definition is_Exception (e : exn) : bool :=
  match e with
  | KeyboardInterrupt | GeneratorExit | CancelledError => false
  | _ => true
  end.

(** The result of evaluating an expression: a value or a raised
    exception. *)
Inductive result (A : Type) :=
| Ok (a : A)
| Raise (e : exn).
Arguments Ok {A} a.
Arguments Raise {A} e.

Definition bind {A B} (r : result A) (k : A -> result B) : result B :=
  match r with
  | Ok a => k a
  | Raise e => Raise e
  end.

(** [o[0]] on a value that may be [None]: [None[0]] is a TypeError, and
    [[][0]] an IndexError. *)
Definition subscript0 {A} (o : option (list A)) : result A :=
  match o with
  | None => Raise TypeError
  | Some [] => Raise IndexError
  | Some (x :: _) => Ok x
  end.

(** [o.attr] on a value that may be [None]: AttributeError on [None]. *)
Definition getattr {A B} (o : option A) (attr : A -> B) : result B :=
  match o with
  | None => Raise AttributeError
  | Some a => Ok (attr a)
  end.

End Py.

Import Py.

Notation "'let!' x ':=' r 'in' k" := (Py.bind r (fun x => k))
  (at level 10, x name, r at level 100, k at level 200).

(* ------------------------------------------------------------------ *)
(** ** The [logging] module, as far as [llm.py] uses it *)

Module logging.

Definition NOTSET : Z := 0.
Definition INFO : Z := 20.
Definition WARNING : Z := 30.
Definition CRITICAL : Z := 50.

(** A [StreamHandler()] (its stream is [sys.stderr]) with the format
    string of its [Formatter], if one was set. *)
Record Handler := mkHandler {
  formatter : option string
}.

(** A logger: its own level, its handlers, and the effective level of
    its parent chain (the root logger starts at WARNING), which is what
    [getEffectiveLevel] answers when the logger's own level is NOTSET. *)
Record Logger := mkLogger {
  name : string;
  level : Z;
  handlers : list Handler;
  parent_level : Z
}.

Record LogRecord := mkLogRecord {
  logger_name : string;
  levelno : Z;
  msg : string;
  args : list string
}.

Definition setLevel (lvl : Z) (lg : Logger) : Logger :=
  {| name := name lg; level := lvl; handlers := handlers lg;
     parent_level := parent_level lg |}.

Definition addHandler (h : Handler) (lg : Logger) : Logger :=
  {| name := name lg; level := level lg; handlers := handlers lg ++ [h];
     parent_level := parent_level lg |}.

Definition setFormatter (f : string) (h : Handler) : Handler :=
  {| formatter := Some f |}.

Definition StreamHandler : Handler := {| formatter := None |}.

Definition getEffectiveLevel (lg : Logger) : Z :=
  if level lg =? NOTSET then parent_level lg else level lg.

Definition isEnabledFor (lg : Logger) (lvl : Z) : bool :=
  getEffectiveLevel lg <=? lvl.

(** [logger.info(msg, *args)]: the records handed to the handlers, none
    when the logger is not enabled for INFO. *)
Definition info (lg : Logger) (m : string) (a : list string)
  : list LogRecord :=
  if isEnabledFor lg INFO
  then [ {| logger_name := name lg; levelno := INFO; msg := m; args := a |} ]
  else [].

(** [msg % args] for the [%s] conversions the module uses. *)
Fixpoint percent (m : string) (a : list string) : string :=
  match m with
  | EmptyString => EmptyString
  | String c rest =>
      match c, rest, a with
      | "%"%char, String "s"%char rest', x :: a' => x +:+ percent rest' a'
      | _, _, _ => String c (percent rest a)
      end
  end.

(** [record.getMessage()] *)
Definition getMessage (r : LogRecord) : string :=
  match args r with
  | [] => msg r
  | _ :: _ => percent (msg r) (args r)
  end.

End logging.

(* ------------------------------------------------------------------ *)
(** ** Module state: the logger and [enable_llm_logging] *)

(** [logger = logging.getLogger("spegel.llm")] followed by
    [logger.setLevel(logging.CRITICAL + 1)]. *)
Definition logger (root_level : Z) : logging.Logger :=
  logging.setLevel (logging.CRITICAL + 1)
    {| logging.name := "spegel.llm"; logging.level := logging.NOTSET;
       logging.handlers := []; logging.parent_level := root_level |}.

Definition enable_llm_logging (level : Z) (lg : logging.Logger)
  : logging.Logger :=
  let lg := logging.setLevel level lg in
  if negb (nonempty (logging.handlers lg)) then
    let handler := logging.StreamHandler in
    let formatter := "%(asctime)s - %(name)s - %(levelname)s - %(message)s" in
    let handler := logging.setFormatter formatter handler in
    logging.addHandler handler lg
  else lg.

(** [enable_llm_logging] called once per element of [levels], in order. *)
Definition enable_repeatedly (levels : list Z) (lg : logging.Logger)
  : logging.Logger :=
  fold_left (fun l lvl => enable_llm_logging lvl l) levels lg.

(** The sink [enable_llm_logging] attaches. *)
Definition console_handler : logging.Handler :=
  {| logging.formatter :=
       Some "%(asctime)s - %(name)s - %(levelname)s - %(message)s" |}.

(* ------------------------------------------------------------------ *)
(** ** The vendor SDK objects the adapters read and build *)

(** [google.genai]: a streamed [GenerateContentResponse] and the request
    arguments of [generate_content_stream]. *)
Module genai.

Record Part := mkPart { text : option string }.
Record Content := mkContent { parts : option (list Part) }.
Record Candidate := mkCandidate { content : option Content }.
Record GenerateContentResponse := mkResponse {
  candidates : option (list Candidate)
}.

Record ThinkingConfig := mkThinkingConfig { thinking_budget : Z }.

Record GenerateContentConfig := mkConfig {
  temperature : option Q;
  max_output_tokens : option Z;
  response_mime_type : option string;
  thinking_config : option ThinkingConfig
}.

Record Request := mkRequest {
  model : string;
  contents : string;
  config : GenerateContentConfig
}.

End genai.

(** [mistralai]: a streamed [CompletionEvent] and the request arguments of
    [chat.stream_async]. *)
Module mistralai.

Record DeltaMessage := mkDelta { content : option string }.
Record Choice := mkChoice { delta : option DeltaMessage }.
Record CompletionChunk := mkChunk { choices : list Choice }.
Record CompletionEvent := mkEvent { data : option CompletionChunk }.

(** One entry of [messages]: [{"role": ..., "content": ...}]. *)
Record Message := mkMessage { role : string; message_content : string }.

Record Request := mkRequest {
  model : string;
  messages : list Message;
  stream : bool
}.

End mistralai.

(** The value of the [generation_config] argument of either [stream]. *)
Abbreviation GenerationConfig := genai.GenerateContentConfig.

(* ------------------------------------------------------------------ *)
(** ** Effects and async generators *)

Inductive effect :=
| Log (r : logging.LogRecord)
| Print_event_received (chunk : mistralai.CompletionEvent)
| Print_content (s : string)
| Print_error (e : exn)
| Call_generate_content_stream (req : genai.Request)
| Call_stream_async (req : mistralai.Request).

(** How a resumption of a generator ends. *)
Inductive resume :=
| Yield (text : string)
| StopAsyncIteration
| Raised (e : exn).

(** How a full consumption ([async for chunk in client.stream(...)])
    ends. *)
Inductive outcome :=
| Returned
| Propagated (e : exn).

Section Consumer.

Context {St : Type}.
Variable anext : St -> list effect * resume * St.

(** [async for chunk in gen]: resume until the generator stops,
    collecting what it yields; [fuel] bounds the number of
    resumptions. *)
Fixpoint drain (fuel : nat) (st : St)
  : option (list effect * list string * outcome) :=
  match fuel with
  | O => None
  | S fuel' =>
      match anext st with
      | (eff, Yield text, st') =>
          match drain fuel' st' with
          | Some (eff', ys, o) => Some (eff ++ eff', text :: ys, o)
          | None => None
          end
      | (eff, StopAsyncIteration, _) => Some (eff, [], Returned)
      | (eff, Raised e, _) => Some (eff, [], Propagated e)
      end
  end.

End Consumer.

(** The log records among the effects of a call, and those of them that
    are "LLM Prompt" and "LLM Response" events. *)
Definition log_records (effs : list effect) : list logging.LogRecord :=
  omap (fun e => match e with Log r => Some r | _ => None end) effs.

Definition is_event (fmt : string) (r : logging.LogRecord) : bool :=
  String.eqb (logging.msg r) fmt.

Definition prompt_events (effs : list effect) : list logging.LogRecord :=
  List.filter (is_event "LLM Prompt: %s") (log_records effs).

Definition response_events (effs : list effect) : list logging.LogRecord :=
  List.filter (is_event "LLM Response: %s") (log_records effs).

(** The composed contents of the requests submitted to a vendor among the
    effects of a call: [contents=] for the primary vendor, the
    ["content"] of each message for the secondary one. *)
Definition submitted (effs : list effect) : list string :=
  flat_map (fun e =>
              match e with
              | Call_generate_content_stream req => [genai.contents req]
              | Call_stream_async req =>
                  map mistralai.message_content (mistralai.messages req)
              | _ => []
              end) effs.

(* ------------------------------------------------------------------ *)
(** ** Request composition *)

(** The line feed of the f-string [f"{prompt}\n\n{content}"]. *)
Definition LF : string := String "010"%char EmptyString.

(** [user_content = f"{prompt}\n\n{content}" if content else prompt] *)
Definition user_content (prompt content : string) : string :=
  if truthy content then prompt +:+ LF +:+ LF +:+ content else prompt.

(* ------------------------------------------------------------------ *)
(** ** [class GeminiClient(LLMClient)] *)

Module GeminiClient.

(** The instance attributes: the key held by [self._client] and
    [self.model_name]. *)
Record t := mk { api_key : string; model_name : string }.

Definition default_model_name : string :=
  "gemini-2.5-flash-lite-preview-06-17".

(** [genai_imported] tells whether the module-level
    [from google import genai] block succeeded ([genai is not None]). *)
Definition __init__ (genai_imported : bool) (api_key : string)
    (model_name : string) : result t :=
  if negb genai_imported then Raise RuntimeError
  else Ok {| api_key := api_key; model_name := model_name |}.

(** The configuration built when [generation_config is None]. *)
Definition default_generation_config : GenerationConfig :=
  {| genai.temperature := Some (0.2)%Q;
     genai.max_output_tokens := Some 8192;
     genai.response_mime_type := Some "text/plain";
     genai.thinking_config :=
       Some {| genai.thinking_budget := 0 |} |}.

(** The arguments of [generate_content_stream]. *)
Definition request (self : t) (prompt content : string)
    (generation_config : option GenerationConfig) : genai.Request :=
  let generation_config :=
    match generation_config with
    | None => default_generation_config
    | Some c => c
    end in
  {| genai.model := model_name self;
     genai.contents := user_content prompt content;
     genai.config := generation_config |}.

(** [chunk.candidates[0].content.parts[0].text] *)
Definition extract_text (chunk : genai.GenerateContentResponse)
  : result (option string) :=
  let! candidate := subscript0 (genai.candidates chunk) in
  let! parts := getattr (genai.content candidate) genai.parts in
  let! part := subscript0 parts in
  Ok (genai.text part).

(** Where the generator [stream] can be suspended. *)
Inductive state :=
| Created (self : t) (prompt content : string)
    (generation_config : option GenerationConfig)
| Suspended (rest : list genai.GenerateContentResponse)
    (collected : list string)
| Finished.

(** The [async for] loop from its head, with [chunks] still to come,
    and the code after it. *)
Fixpoint loop (lg : logging.Logger)
    (chunks : list genai.GenerateContentResponse)
    (collected : list string) : list effect * resume * state :=
  match chunks with
  | [] =>
      let logged :=
        if nonempty collected
        then logging.info lg "LLM Response: %s" [join collected]
        else [] in
      (map Log logged, StopAsyncIteration, Finished)
  | chunk :: rest =>
      match extract_text chunk with
      | Ok (Some text) =>
          if truthy text
          then ([], Yield text, Suspended rest (collected ++ [text]))
          else loop lg rest collected
      | Ok None => loop lg rest collected
      | Raise e =>
          if is_Exception e then loop lg rest collected
          else ([], Raised e, Finished)
      end
  end.

Section Vendor.

(** The chunks the vendor streams in answer to a request. *)
Variable generate_content_stream :
  genai.Request -> list genai.GenerateContentResponse.

(** One resumption of [stream], with the logger as it is then. *)
Definition anext (lg : logging.Logger) (st : state)
  : list effect * resume * state :=
  match st with
  | Created self prompt content generation_config =>
      let req := request self prompt content generation_config in
      let logged := logging.info lg "LLM Prompt: %s" [genai.contents req] in
      let chunks := generate_content_stream req in
      let '(eff, r, st') := loop lg chunks [] in
      (map Log logged ++ Call_generate_content_stream req :: eff, r, st')
  | Suspended rest collected => loop lg rest collected
  | Finished => ([], StopAsyncIteration, Finished)
  end.

(** The largest number of resumptions a consumer can need. *)
Definition fuel (st : state) : nat :=
  match st with
  | Created self prompt content generation_config =>
      S (length (generate_content_stream
                   (request self prompt content generation_config)))
  | Suspended rest _ => S (length rest)
  | Finished => 1%nat
  end.

(** [async for chunk in self.stream(prompt, content, generation_config)]
    run to the end, the logger unchanged meanwhile. *)
Definition stream (lg : logging.Logger) (self : t)
    (prompt content : string)
    (generation_config : option GenerationConfig)
  : option (list effect * list string * outcome) :=
  let st := Created self prompt content generation_config in
  drain (anext lg) (fuel st) st.

End Vendor.

(** The fragments the loop yields for a list of chunks. *)
Definition fragment (chunk : genai.GenerateContentResponse)
  : option string :=
  match extract_text chunk with
  | Ok (Some text) => if truthy text then Some text else None
  | _ => None
  end.

Definition fragments (chunks : list genai.GenerateContentResponse)
  : list string := omap fragment chunks.

End GeminiClient.

(* ------------------------------------------------------------------ *)
(** ** [class MistralClient(LLMClient)] *)

Module MistralClient.

Record t := mk { api_key : string }.

Definition __init__ (api_key : string) : result t :=
  Ok {| api_key := api_key |}.

(** The arguments of [chat.stream_async].  [generation_config] is a
    parameter of [stream] and is not read. *)
Definition request (self : t) (prompt content : string)
    (generation_config : option GenerationConfig) : mistralai.Request :=
  let model := "mistral-medium-latest" in
  {| mistralai.model := model;
     mistralai.messages :=
       [ {| mistralai.role := "user";
            mistralai.message_content := user_content prompt content |} ];
     mistralai.stream := true |}.

(** [chunk.data.choices[0].delta.content] *)
Definition extract_content (chunk : mistralai.CompletionEvent)
  : result (option string) :=
  let! choices := getattr (mistralai.data chunk) mistralai.choices in
  let! choice := subscript0 (Some choices) in
  getattr (mistralai.delta choice) mistralai.content.

Inductive state :=
| Created (self : t) (prompt content : string)
    (generation_config : option GenerationConfig)
| Suspended (rest : list mistralai.CompletionEvent)
    (collected : list string)
| Final
| Finished.

(** The [try] block for one chunk, up to its [yield] or to the
    exception that leaves it, with what it prints on the way.  In the
    [else] branch the name [event] is unbound, so evaluating the
    arguments of its [print] raises NameError. *)
Definition try_block (chunk : mistralai.CompletionEvent)
  : list effect * result string :=
  match extract_content chunk with
  | Ok (Some text) =>
      ([Print_event_received chunk; Print_content text], Ok text)
  | Ok None => ([Print_event_received chunk], Raise NameError)
  | Raise e => ([Print_event_received chunk], Raise e)
  end.

Fixpoint loop (lg : logging.Logger)
    (chunks : list mistralai.CompletionEvent)
    (collected : list string) : list effect * resume * state :=
  match chunks with
  | [] =>
      let logged :=
        if nonempty collected
        then logging.info lg "LLM Response: %s" [join collected]
        else [] in
      (map Log logged, Yield (join collected), Final)
  | chunk :: rest =>
      match try_block chunk with
      | (eff, Ok text) =>
          (eff, Yield text, Suspended rest (collected ++ [text]))
      | (eff, Raise e) =>
          if is_Exception e then
            let '(eff', r, st') := loop lg rest collected in
            (eff ++ Print_error e :: eff', r, st')
          else (eff, Raised e, Finished)
      end
  end.

Section Vendor.

Variable stream_async :
  mistralai.Request -> list mistralai.CompletionEvent.

Definition anext (lg : logging.Logger) (st : state)
  : list effect * resume * state :=
  match st with
  | Created self prompt content generation_config =>
      let req := request self prompt content generation_config in
      let chunks := stream_async req in
      let logged := logging.info lg "LLM data has run" [] in
      let '(eff, r, st') := loop lg chunks [] in
      (Call_stream_async req :: map Log logged ++ eff, r, st')
  | Suspended rest collected => loop lg rest collected
  | Final => ([], StopAsyncIteration, Finished)
  | Finished => ([], StopAsyncIteration, Finished)
  end.

Definition fuel (st : state) : nat :=
  match st with
  | Created self prompt content generation_config =>
      S (S (length (stream_async
                      (request self prompt content generation_config))))
  | Suspended rest _ => S (S (length rest))
  | Final => 1%nat
  | Finished => 1%nat
  end.

Definition stream (lg : logging.Logger) (self : t)
    (prompt content : string)
    (generation_config : option GenerationConfig)
  : option (list effect * list string * outcome) :=
  let st := Created self prompt content generation_config in
  drain (anext lg) (fuel st) st.

End Vendor.

(** The fragment the loop yields for a chunk, if any. *)
Definition fragment (chunk : mistralai.CompletionEvent) : option string :=
  match extract_content chunk with
  | Ok (Some text) => Some text
  | _ => None
  end.

Definition fragments (chunks : list mistralai.CompletionEvent)
  : list string := omap fragment chunks.

End MistralClient.

(* ------------------------------------------------------------------ *)
(** ** [get_default_client] *)

(** [LLMClient | None] is [option LLMClient]; the two concrete
    subclasses are the two variants. *)
Inductive LLMClient :=
| Gemini (client : GeminiClient.t)
| Mistral (client : MistralClient.t).

(** [os.getenv(key)] *)
Definition getenv (environ : gmap string string) (key : string)
  : option string := environ !! key.

Definition get_default_client (environ : gmap string string)
    (genai_imported : bool) : result (option LLMClient * bool) :=
  let gemini_api_key := getenv environ "GEMINI_API_KEY" in
  let mistral_api_key := getenv environ "MISTRAL_API_KEY" in
  let otherwise :=
    match mistral_api_key with
    | Some key =>
        if truthy key then
          let! client := MistralClient.__init__ key in
          Ok (Some (Mistral client), true)
        else Ok (None, false)
    | None => Ok (None, false)
    end in
  match gemini_api_key with
  | Some key =>
      if truthy key && genai_imported then
        let! client :=
          GeminiClient.__init__ genai_imported key
            GeminiClient.default_model_name in
        Ok (Some (Gemini client), true)
      else otherwise
  | None => otherwise
  end.

(** An environment variable is set when [os.environ] has it, whatever its
    value. *)
Definition is_set (environ : gmap string string) (key : string) : Prop :=
  is_Some (environ !! key).

(* ------------------------------------------------------------------ *)
(** ** Definitions used to state the properties *)

(** What [logger.info("LLM Response: %s", "".join(collected))] hands to
    the handlers under its guard [if collected]. *)
Definition response_log (lg : logging.Logger) (collected : list string)
  : list logging.LogRecord :=
  if nonempty collected
  then logging.info lg "LLM Response: %s" [join collected]
  else [].

(** What the loop body prints for one chunk. *)
Definition printed (chunk : mistralai.CompletionEvent) : list effect :=
  match MistralClient.try_block chunk with
  | (eff, Ok _) => eff
  | (eff, Raise e) => eff ++ [Print_error e]
  end.

(** A primary-vendor chunk whose first part carries [t]. *)
Definition text_chunk (t : string) : genai.GenerateContentResponse :=
  {| genai.candidates :=
       Some [ {| genai.content :=
                   Some {| genai.parts :=
                             Some [ {| genai.text := Some t |} ] |} |} ] |}.

(** A primary-vendor chunk without candidates: [candidates[0]] raises
    IndexError. *)
Definition no_candidates : genai.GenerateContentResponse :=
  {| genai.candidates := Some [] |}.

(** A secondary-vendor event whose first choice carries the delta [t]. *)
Definition delta_chunk (t : string) : mistralai.CompletionEvent :=
  {| mistralai.data :=
       Some {| mistralai.choices :=
                 [ {| mistralai.delta :=
                        Some {| mistralai.content := Some t |} |} ] |} |}.

(** A secondary-vendor event without choices: [choices[0]] raises
    IndexError. *)
Definition no_choices : mistralai.CompletionEvent :=
  {| mistralai.data := Some {| mistralai.choices := [] |} |}.

(* ------------------------------------------------------------------ *)
(** ** The command-line entry point ([if __name__ == "__main__":]) *)

(** What the script and the generator it consumes do, in order: the
    script's own [print]s to stdout and to stderr, and the effects of the
    generator. *)
Inductive output :=
| Stdout (s : string)
| Stderr (s : string)
| Effect (e : effect).

(** How the script ends: [sys.exit(code)] or falling off its end (code
    0), or an exception nobody caught. *)
Inductive exit_status :=
| Exit (code : Z)
| Uncaught (e : exn).

Definition stdout_of (outs : list output) : list string :=
  omap (fun o => match o with Stdout s => Some s | _ => None end) outs.

Definition stderr_of (outs : list output) : list string :=
  omap (fun o => match o with Stderr s => Some s | _ => None end) outs.

Definition effects_of (outs : list output) : list effect :=
  omap (fun o => match o with Effect e => Some e | _ => None end) outs.

(** What the secondary adapter prints, by kind. *)
Definition announced (effs : list effect) : list mistralai.CompletionEvent :=
  omap (fun e => match e with Print_event_received c => Some c | _ => None end)
       effs.

Definition printed_contents (effs : list effect) : list string :=
  omap (fun e => match e with Print_content s => Some s | _ => None end) effs.

Definition printed_errors (effs : list effect) : list exn :=
  omap (fun e => match e with Print_error x => Some x | _ => None end) effs.

Module Cli.

Section Vendors.

Variable generate_content_stream :
  genai.Request -> list genai.GenerateContentResponse.
Variable stream_async :
  mistralai.Request -> list mistralai.CompletionEvent.

(** The generator [client.stream(prompt, content)], by the class of
    [client]; [generation_config] keeps its default [None]. *)
Definition LLMClient_stream (client : LLMClient) (prompt content : string)
  : GeminiClient.state + MistralClient.state :=
  match client with
  | Gemini c => inl (GeminiClient.Created c prompt content None)
  | Mistral c => inr (MistralClient.Created c prompt content None)
  end.

Definition anext (lg : logging.Logger)
    (st : GeminiClient.state + MistralClient.state)
  : list effect * resume * (GeminiClient.state + MistralClient.state) :=
  match st with
  | inl g =>
      let '(eff, r, g') := GeminiClient.anext generate_content_stream lg g in
      (eff, r, inl g')
  | inr m =>
      let '(eff, r, m') := MistralClient.anext stream_async lg m in
      (eff, r, inr m')
  end.

Definition fuel (st : GeminiClient.state + MistralClient.state) : nat :=
  match st with
  | inl g => GeminiClient.fuel generate_content_stream g
  | inr m => MistralClient.fuel stream_async m
  end.

(** [async for chunk in client.stream(args.prompt, ""):
       print(chunk, end="", flush=True)] *)
Fixpoint _main (lg : logging.Logger) (n : nat)
    (st : GeminiClient.state + MistralClient.state)
  : option (list output * outcome) :=
  match n with
  | O => None
  | S n' =>
      match anext lg st with
      | (eff, Yield chunk, st') =>
          match _main lg n' st' with
          | Some (outs, o) => Some (map Effect eff ++ Stdout chunk :: outs, o)
          | None => None
          end
      | (eff, StopAsyncIteration, _) => Some (map Effect eff, Returned)
      | (eff, Raised e, _) => Some (map Effect eff, Propagated e)
      end
  end.

(** The script after [args = parser.parse_args()], with [prompt] for
    [args.prompt].  The module-level logger is as the import left it
    (the call of [enable_llm_logging] is commented out). *)
Definition main (environ : gmap string string) (genai_imported : bool)
    (root_level : Z) (prompt : string)
  : option (list output * exit_status) :=
  match get_default_client environ genai_imported with
  | Raise e => Some ([], Uncaught e)
  | Ok (client, ok) =>
      match ok, client with
      | true, Some client =>
          let st := LLMClient_stream client prompt "" in
          match _main (logger root_level) (fuel st) st with
          | Some (outs, Returned) => Some (outs, Exit 0)
          | Some (outs, Propagated KeyboardInterrupt) => Some (outs, Exit 0)
          | Some (outs, Propagated e) => Some (outs, Uncaught e)
          | None => None
          end
      | _, _ =>
          Some ([Stderr
                   "Error: GEMINI_API_KEY not set or google-genai unavailable"],
                Exit 1)
      end
  end.

End Vendors.

End Cli.

(* ------------------------------------------------------------------ *)
(** ** Strings *)

#[local] Arguments String.append !s1 s2 : simpl nomatch.

Lemma append_nil_r (s : string) : s +:+ "" = s.
Proof. induction s as [|c s IH]; simpl; [reflexivity | now rewrite IH]. Qed.

Lemma truthy_true (s : string) : truthy s = true <-> s <> "".
Proof. destruct s; simpl; split; congruence. Qed.

(* ------------------------------------------------------------------ *)
(** ** Consuming a generator *)

Section DrainFacts.

Context {St : Type}.
Variable anext : St -> list effect * resume * St.

Lemma drain_S (n : nat) (st : St) :
  drain anext (S n) st
  = match anext st with
    | (eff, Yield text, st') =>
        match drain anext n st' with
        | Some (eff', ys, o) => Some (eff ++ eff', text :: ys, o)
        | None => None
        end
    | (eff, StopAsyncIteration, _) => Some (eff, [], Returned)
    | (eff, Raised e, _) => Some (eff, [], Propagated e)
    end.
Proof. reflexivity. Qed.

(** Two states that resume alike are consumed alike. *)
Lemma drain_same_resume (n : nat) (st1 st2 : St) :
  anext st1 = anext st2 -> drain anext n st1 = drain anext n st2.
Proof. intros H. destruct n as [|n]; simpl; [reflexivity | now rewrite H]. Qed.

(** Effects that precede a resumption precede the whole consumption. *)
Lemma drain_prefix (n : nat) (st1 st2 : St) (pre : list effect) :
  (forall eff r st', anext st2 = (eff, r, st') ->
                     anext st1 = (pre ++ eff, r, st')) ->
  forall eff ys o,
    drain anext n st2 = Some (eff, ys, o) ->
    drain anext n st1 = Some (pre ++ eff, ys, o).
Proof.
  intros H eff ys o. destruct n as [|n]; simpl; [discriminate|].
  destruct (anext st2) as [[e r] s'] eqn:E2.
  rewrite (H _ _ _ eq_refl).
  destruct r as [text| |e0].
  - destruct (drain anext n s') as [[[e' ys'] o']|]; [|discriminate].
    intros [= <- <- <-]. now rewrite app_assoc.
  - now intros [= <- <- <-].
  - now intros [= <- <- <-].
Qed.

End DrainFacts.

(* ------------------------------------------------------------------ *)
(** ** The primary adapter, step by step and as a whole *)

Section GeminiFacts.

Import GeminiClient.

Variable generate_content_stream :
  genai.Request -> list genai.GenerateContentResponse.
Variable lg : logging.Logger.

(** Every exception the attribute chain can raise is caught by
    [except Exception]. *)
Lemma extract_text_raises_Exception chunk e :
  extract_text chunk = Raise e -> is_Exception e = true.
Proof.
  unfold extract_text, subscript0, getattr.
  destruct chunk as [[[|[content] cs]|]]; simpl;
    try (intros [= <-]; reflexivity).
  destruct content as [[parts]|]; simpl;
    try (intros [= <-]; reflexivity).
  destruct parts as [[|part ps]|]; simpl;
    intros [= <-]; reflexivity.
Qed.

Lemma gemini_loop_skip chunk rest collected :
  fragment chunk = None ->
  loop lg (chunk :: rest) collected = loop lg rest collected.
Proof.
  unfold fragment. simpl.
  destruct (extract_text chunk) as [[text|]|e] eqn:E; try reflexivity.
  - destruct (truthy text); [discriminate | reflexivity].
  - now rewrite (extract_text_raises_Exception _ _ E).
Qed.

Lemma gemini_loop_yield chunk rest collected text :
  fragment chunk = Some text ->
  loop lg (chunk :: rest) collected
  = ([], Yield text, Suspended rest (collected ++ [text])).
Proof.
  unfold fragment. simpl.
  destruct (extract_text chunk) as [[t|]|e]; try discriminate.
  destruct (truthy t); [|discriminate]. now intros [= ->].
Qed.

Lemma gemini_loop_skip_many skipped rest collected :
  fragments skipped = [] ->
  loop lg (skipped ++ rest) collected = loop lg rest collected.
Proof.
  induction skipped as [|c skipped IH]; [reflexivity|].
  unfold fragments. intros H. simpl omap in H.
  destruct (fragment c) eqn:F; [discriminate|].
  rewrite <- app_comm_cons, gemini_loop_skip by exact F. now apply IH.
Qed.

(** The loop never lets an exception out. *)
Lemma gemini_loop_never_raises chunks collected eff e st' :
  loop lg chunks collected <> (eff, Raised e, st').
Proof.
  revert collected. induction chunks as [|c rest IH]; intros collected.
  - simpl. congruence.
  - destruct (fragment c) as [text|] eqn:F.
    + rewrite (gemini_loop_yield _ _ _ _ F). congruence.
    + rewrite (gemini_loop_skip _ _ _ F). apply IH.
Qed.

(** Consuming the generator from a suspension point. *)
Lemma gemini_drain_Suspended chunks : forall collected n,
  (length chunks < n)%nat ->
  drain (anext generate_content_stream lg) n (Suspended chunks collected)
  = Some (map Log (response_log lg (collected ++ fragments chunks)),
          fragments chunks, Returned).
Proof.
  induction chunks as [|c rest IH]; intros collected n Hn.
  - destruct n as [|n]; [simpl in Hn; lia|].
    unfold fragments. simpl. now rewrite app_nil_r.
  - destruct (fragment c) as [text|] eqn:F.
    + destruct n as [|n]; [simpl in Hn; lia|].
      rewrite drain_S.
      change (anext generate_content_stream lg
                (Suspended (c :: rest) collected))
        with (loop lg (c :: rest) collected).
      rewrite (gemini_loop_yield _ _ _ _ F).
      rewrite IH by (simpl in Hn; lia).
      unfold fragments. simpl omap. rewrite F.
      now rewrite <- app_assoc.
    + rewrite (drain_same_resume _ n _ (Suspended rest collected)).
      * rewrite IH by (simpl in Hn; lia).
        unfold fragments. simpl omap. now rewrite F.
      * now apply gemini_loop_skip.
Qed.

(** A whole call: the prompt record, the vendor call, the fragments in
    stream order, the response record, and a normal return. *)
Lemma stream_Gemini self prompt content generation_config :
  let req := request self prompt content generation_config in
  let ys := fragments (generate_content_stream req) in
  stream generate_content_stream lg self prompt content generation_config
  = Some (map Log (logging.info lg "LLM Prompt: %s"
                     [user_content prompt content])
            ++ Call_generate_content_stream req
            :: map Log (response_log lg ys),
          ys, Returned).
Proof.
  intros req ys. unfold stream.
  replace (map Log (logging.info lg "LLM Prompt: %s"
                      [user_content prompt content])
             ++ Call_generate_content_stream req
             :: map Log (response_log lg ys))
    with ((map Log (logging.info lg "LLM Prompt: %s"
                      [user_content prompt content])
             ++ [Call_generate_content_stream req])
            ++ map Log (response_log lg ys))
    by now rewrite <- app_assoc.
  apply drain_prefix
    with (st2 := Suspended (generate_content_stream req) []).
  - intros eff r st' H. simpl in H. simpl anext. fold req.
    rewrite H. now rewrite <- app_assoc.
  - apply gemini_drain_Suspended. simpl. fold req. lia.
Qed.

End GeminiFacts.

(* ------------------------------------------------------------------ *)
(** ** The secondary adapter, step by step and as a whole *)

Section MistralFacts.

Import MistralClient.

Variable stream_async :
  mistralai.Request -> list mistralai.CompletionEvent.
Variable lg : logging.Logger.

Lemma extract_content_raises_Exception chunk e :
  extract_content chunk = Raise e -> is_Exception e = true.
Proof.
  unfold extract_content, subscript0, getattr.
  destruct chunk as [[[choices]|]]; simpl;
    try (intros [= <-]; reflexivity).
  destruct choices as [|[[d|]] cs]; simpl;
    intros [= <-]; reflexivity.
Qed.

(** Every exception that leaves the [try] block is caught. *)
Lemma try_block_raises_Exception chunk eff e :
  try_block chunk = (eff, Raise e) -> is_Exception e = true.
Proof.
  unfold try_block.
  destruct (extract_content chunk) as [[text|]|e0] eqn:E.
  - discriminate.
  - now intros [= <- <-].
  - intros [= <- <-]. exact (extract_content_raises_Exception _ _ E).
Qed.

Lemma mistral_loop_yield chunk rest collected text :
  fragment chunk = Some text ->
  loop lg (chunk :: rest) collected
  = (printed chunk, Yield text, Suspended rest (collected ++ [text])).
Proof.
  unfold fragment, printed. simpl. unfold try_block.
  destruct (extract_content chunk) as [[t|]|e]; try discriminate.
  now intros [= ->].
Qed.

Lemma mistral_loop_skip chunk rest collected :
  fragment chunk = None ->
  loop lg (chunk :: rest) collected
  = let '(eff, r, st') := loop lg rest collected in
    (printed chunk ++ eff, r, st').
Proof.
  intros F. unfold printed. simpl.
  destruct (try_block chunk) as [eff [text|e]] eqn:T.
  - exfalso. revert F T. unfold fragment, try_block.
    destruct (extract_content chunk) as [[t|]|e]; discriminate.
  - rewrite (try_block_raises_Exception _ _ _ T).
    destruct (loop lg rest collected) as [[eff' r] st'].
    now rewrite <- app_assoc.
Qed.

Lemma mistral_loop_never_raises chunks collected eff e st' :
  loop lg chunks collected <> (eff, Raised e, st').
Proof.
  revert collected eff.
  induction chunks as [|c rest IH]; intros collected eff.
  - simpl. congruence.
  - destruct (fragment c) as [text|] eqn:F.
    + rewrite (mistral_loop_yield _ _ _ _ F). congruence.
    + rewrite (mistral_loop_skip _ _ _ F).
      destruct (loop lg rest collected) as [[eff' r] st''] eqn:L.
      intros [= <- -> <-]. exact (IH _ _ L).
Qed.

Lemma mistral_drain_Suspended chunks : forall collected n,
  (S (length chunks) < n)%nat ->
  drain (anext stream_async lg) n (Suspended chunks collected)
  = Some (concat (map printed chunks)
            ++ map Log (response_log lg (collected ++ fragments chunks)),
          fragments chunks ++ [join (collected ++ fragments chunks)],
          Returned).
Proof.
  induction chunks as [|c rest IH]; intros collected n Hn.
  - destruct n as [|[|n]]; try (simpl in Hn; lia).
    unfold fragments. simpl. now rewrite !app_nil_r.
  - destruct (fragment c) as [text|] eqn:F.
    + destruct n as [|n]; [simpl in Hn; lia|].
      rewrite drain_S.
      change (anext stream_async lg (Suspended (c :: rest) collected))
        with (loop lg (c :: rest) collected).
      rewrite (mistral_loop_yield _ _ _ _ F).
      rewrite IH by (simpl in Hn; lia).
      unfold fragments. simpl omap. rewrite F. simpl concat.
      now rewrite <- !app_assoc.
    + unfold fragments. simpl omap. rewrite F. simpl concat.
      rewrite <- app_assoc.
      apply drain_prefix with (st2 := Suspended rest collected).
      * intros eff r st' H.
        change (loop lg (c :: rest) collected = (printed c ++ eff, r, st')).
        change (loop lg rest collected = (eff, r, st')) in H.
        rewrite (mistral_loop_skip _ _ _ F). now rewrite H.
      * apply IH. simpl in Hn. lia.
Qed.

(** A whole call: the vendor call, the "LLM data has run" record, what
    the loop prints, the response record; the fragments in stream
    order followed by their concatenation; a normal return. *)
Lemma stream_Mistral self prompt content generation_config :
  let req := request self prompt content generation_config in
  let chunks := stream_async req in
  let ys := fragments chunks in
  stream stream_async lg self prompt content generation_config
  = Some (Call_stream_async req
            :: map Log (logging.info lg "LLM data has run" [])
            ++ concat (map printed chunks)
            ++ map Log (response_log lg ys),
          ys ++ [join ys], Returned).
Proof.
  intros req chunks ys. unfold stream.
  change (Call_stream_async req
            :: map Log (logging.info lg "LLM data has run" [])
            ++ concat (map printed chunks)
            ++ map Log (response_log lg ys))
    with ((Call_stream_async req
             :: map Log (logging.info lg "LLM data has run" []))
            ++ concat (map printed chunks)
            ++ map Log (response_log lg ys)).
  apply drain_prefix with (st2 := Suspended chunks []).
  - intros eff r st' H. simpl in H. simpl anext. fold req. fold chunks.
    now rewrite H.
  - apply mistral_drain_Suspended. simpl. fold req. fold chunks. lia.
Qed.

End MistralFacts.

(* ------------------------------------------------------------------ *)
(** ** Reading the effects of a call *)

Lemma log_records_app (a b : list effect) :
  log_records (a ++ b) = log_records a ++ log_records b.
Proof. unfold log_records. apply omap_app. Qed.

Lemma log_records_Log (l : list logging.LogRecord) :
  log_records (map Log l) = l.
Proof.
  induction l as [|r l IH]; [reflexivity|].
  change (log_records (map Log (r :: l))) with (r :: log_records (map Log l)).
  now rewrite IH.
Qed.

Lemma submitted_app (a b : list effect) :
  submitted (a ++ b) = submitted a ++ submitted b.
Proof. unfold submitted. apply flat_map_app. Qed.

Lemma submitted_Log (l : list logging.LogRecord) :
  submitted (map Log l) = [].
Proof. induction l as [|r l IH]; [reflexivity | exact IH]. Qed.

Lemma printed_cases (chunk : mistralai.CompletionEvent) :
  (exists text,
      printed chunk = [Print_event_received chunk; Print_content text])
  \/ (exists e,
      printed chunk = [Print_event_received chunk; Print_error e]).
Proof.
  unfold printed, MistralClient.try_block.
  destruct (MistralClient.extract_content chunk) as [[text|]|e]; simpl;
    eauto.
Qed.

Lemma log_records_printed (chunks : list mistralai.CompletionEvent) :
  log_records (concat (map printed chunks)) = [].
Proof.
  induction chunks as [|c chunks IH]; [reflexivity|].
  simpl. rewrite log_records_app, IH.
  destruct (printed_cases c) as [[t ->]|[e ->]]; reflexivity.
Qed.

Lemma submitted_printed (chunks : list mistralai.CompletionEvent) :
  submitted (concat (map printed chunks)) = [].
Proof.
  induction chunks as [|c chunks IH]; [reflexivity|].
  simpl. rewrite submitted_app, IH.
  destruct (printed_cases c) as [[t ->]|[e ->]]; reflexivity.
Qed.

(** The records a whole call on the primary adapter hands to the
    handlers, and the request it submits. *)
Lemma gemini_call generate_content_stream lg self prompt content cfg :
  exists effs,
    GeminiClient.stream generate_content_stream lg self prompt content cfg
    = Some (effs,
            GeminiClient.fragments
              (generate_content_stream
                 (GeminiClient.request self prompt content cfg)),
            Returned)
    /\ log_records effs
       = logging.info lg "LLM Prompt: %s" [user_content prompt content]
         ++ response_log lg
              (GeminiClient.fragments
                 (generate_content_stream
                    (GeminiClient.request self prompt content cfg)))
    /\ submitted effs = [user_content prompt content].
Proof.
  eexists. split; [apply stream_Gemini|]. split.
  - rewrite log_records_app, log_records_Log.
    change (log_records (?c :: ?l)) with (log_records l).
    now rewrite log_records_Log.
  - rewrite submitted_app, submitted_Log. simpl.
    now rewrite submitted_Log.
Qed.

(** The same for the secondary adapter. *)
Lemma mistral_call stream_async lg self prompt content cfg :
  exists effs,
    MistralClient.stream stream_async lg self prompt content cfg
    = Some (effs,
            MistralClient.fragments
              (stream_async (MistralClient.request self prompt content cfg))
            ++ [join (MistralClient.fragments
                        (stream_async
                           (MistralClient.request self prompt content cfg)))],
            Returned)
    /\ log_records effs
       = logging.info lg "LLM data has run" []
         ++ response_log lg
              (MistralClient.fragments
                 (stream_async
                    (MistralClient.request self prompt content cfg)))
    /\ submitted effs = [user_content prompt content].
Proof.
  eexists. split; [apply stream_Mistral|]. split.
  - change (log_records (?c :: ?l)) with (log_records l).
    rewrite !log_records_app, !log_records_Log.
    now rewrite log_records_printed.
  - simpl. rewrite !submitted_app, !submitted_Log.
    now rewrite submitted_printed.
Qed.

(* ------------------------------------------------------------------ *)
(** ** Request composition and the unused [generation_config] *)

(** C2: for a non-empty prompt P, a whole call on either adapter submits
    one request, whose composed content is exactly P when [content] is
    empty, and P, a blank line (two line feeds), then C when [content] is
    a non-empty C. *)
Theorem C2_composed_request :
  forall generate_content_stream stream_async lg gself mself P cfg,
    P <> "" ->
    (exists effs ys o,
        GeminiClient.stream generate_content_stream lg gself P "" cfg
        = Some (effs, ys, o)
        /\ submitted effs = [P])
    /\ (exists effs ys o,
           MistralClient.stream stream_async lg mself P "" cfg
           = Some (effs, ys, o)
           /\ submitted effs = [P])
    /\ (forall C, C <> "" ->
          (exists effs ys o,
              GeminiClient.stream generate_content_stream lg gself P C cfg
              = Some (effs, ys, o)
              /\ submitted effs = [P +:+ LF +:+ LF +:+ C])
          /\ (exists effs ys o,
                 MistralClient.stream stream_async lg mself P C cfg
                 = Some (effs, ys, o)
                 /\ submitted effs = [P +:+ LF +:+ LF +:+ C])).
Proof.
  intros gcs sa lg gself mself P cfg _.
  split; [|split].
  - destruct (gemini_call gcs lg gself P "" cfg) as (effs & E & _ & S).
    do 3 eexists. split; [exact E | exact S].
  - destruct (mistral_call sa lg mself P "" cfg) as (effs & E & _ & S).
    do 3 eexists. split; [exact E | exact S].
  - intros C HC.
    assert (U : user_content P C = P +:+ LF +:+ LF +:+ C).
    { unfold user_content. destruct C; [congruence | reflexivity]. }
    split.
    + destruct (gemini_call gcs lg gself P C cfg) as (effs & E & _ & S).
      rewrite U in S. do 3 eexists. split; [exact E | exact S].
    + destruct (mistral_call sa lg mself P C cfg) as (effs & E & _ & S).
      rewrite U in S. do 3 eexists. split; [exact E | exact S].
Qed.

Lemma C2_composed_request_witness :
  "Summarise" <> ""
  /\ (exists effs ys o,
         GeminiClient.stream (fun _ => []) (logger logging.WARNING)
           (GeminiClient.mk "k" GeminiClient.default_model_name)
           "Summarise" "" None
         = Some (effs, ys, o)
         /\ submitted effs = ["Summarise"])
  /\ "page" <> ""
  /\ (exists effs ys o,
         MistralClient.stream (fun _ => []) (logger logging.WARNING)
           (MistralClient.mk "k") "Summarise" "page" None
         = Some (effs, ys, o)
         /\ submitted effs = ["Summarise" +:+ LF +:+ LF +:+ "page"]).
Proof.
  pose proof (C2_composed_request (fun _ => []) (fun _ => [])
                (logger logging.WARNING)
                (GeminiClient.mk "k" GeminiClient.default_model_name)
                (MistralClient.mk "k") "Summarise" None
                ltac:(discriminate)) as (G & _ & B).
  split; [discriminate|]. split; [exact G|].
  split; [discriminate|].
  exact (proj2 (B "page" ltac:(discriminate))).
Defined.

(** C9: the secondary adapter does not read [generation_config]: two
    calls that differ only in it build the same request, for the fixed
    model id, and a whole call returns the same effects (the submitted
    request among them) and the same fragments. *)
Theorem C9_generation_config_unused :
  forall stream_async lg self prompt content
         (cfg1 cfg2 : option GenerationConfig),
    MistralClient.request self prompt content cfg1
    = MistralClient.request self prompt content cfg2
    /\ mistralai.model (MistralClient.request self prompt content cfg1)
       = "mistral-medium-latest"
    /\ MistralClient.anext stream_async lg
         (MistralClient.Created self prompt content cfg1)
       = MistralClient.anext stream_async lg
           (MistralClient.Created self prompt content cfg2)
    /\ exists r,
         MistralClient.stream stream_async lg self prompt content cfg1
         = Some r
         /\ MistralClient.stream stream_async lg self prompt content cfg2
            = Some r.
Proof.
  intros sa lg self prompt content cfg1 cfg2.
  repeat split.
  destruct (mistral_call sa lg self prompt content cfg1) as (effs & E & _).
  eexists. split; [exact E|]. exact E.
Qed.

(* ------------------------------------------------------------------ *)
(** ** The logging switch *)

Lemma enable_llm_logging_handlers level lg :
  logging.handlers (enable_llm_logging level lg)
  = match logging.handlers lg with
    | [] => [console_handler]
    | _ :: _ => logging.handlers lg
    end.
Proof.
  destruct lg as [name level0 [|h hs] parent]; reflexivity.
Qed.

Lemma enable_repeatedly_keeps_one levels : forall lg,
  logging.handlers lg = [console_handler] ->
  logging.handlers (enable_repeatedly levels lg) = [console_handler].
Proof.
  induction levels as [|lvl levels IH]; intros lg H; [exact H|].
  simpl. apply IH. now rewrite enable_llm_logging_handlers, H.
Qed.

(** C8: from the module's initial logger, any number of calls of
    [enable_llm_logging] (one or more, with any levels) leaves exactly
    one handler attached, the console handler; and on any logger a second
    call attaches nothing more than the first did. *)
Theorem C8_enable_attaches_once :
  (forall root_level lvl levels,
      logging.handlers
        (enable_repeatedly (lvl :: levels) (logger root_level))
      = [console_handler])
  /\ (forall lg lvl1 lvl2,
         logging.handlers (enable_llm_logging lvl2 (enable_llm_logging lvl1 lg))
         = logging.handlers (enable_llm_logging lvl1 lg)).
Proof.
  split.
  - intros root_level lvl levels. simpl.
    apply enable_repeatedly_keeps_one. reflexivity.
  - intros lg lvl1 lvl2. rewrite !enable_llm_logging_handlers.
    destruct (logging.handlers lg); reflexivity.
Qed.

(* ------------------------------------------------------------------ *)
(** ** Backend selection *)

(** [get_default_client] never raises: the constructor of the primary
    adapter is only reached when its own check passes. *)
Lemma get_default_client_cases environ genai_imported :
  (exists key,
      getenv environ "GEMINI_API_KEY" = Some key
      /\ truthy key = true /\ genai_imported = true
      /\ get_default_client environ genai_imported
         = Ok (Some (Gemini (GeminiClient.mk key
                               GeminiClient.default_model_name)), true))
  \/ (exists key,
         (truthy_opt (getenv environ "GEMINI_API_KEY") && genai_imported
          = false)
         /\ getenv environ "MISTRAL_API_KEY" = Some key
         /\ truthy key = true
         /\ get_default_client environ genai_imported
            = Ok (Some (Mistral (MistralClient.mk key)), true))
  \/ ((truthy_opt (getenv environ "GEMINI_API_KEY") && genai_imported
       = false)
      /\ truthy_opt (getenv environ "MISTRAL_API_KEY") = false
      /\ get_default_client environ genai_imported = Ok (None, false)).
Proof.
  unfold get_default_client.
  destruct (getenv environ "GEMINI_API_KEY") as [gk|] eqn:G;
    destruct (getenv environ "MISTRAL_API_KEY") as [mk|] eqn:M; simpl.
  all: try destruct (truthy gk) eqn:TG; try destruct genai_imported;
    try destruct (truthy mk) eqn:TM; simpl.
  all: first
    [ left; exists gk; repeat split; (reflexivity || assumption)
    | right; left; exists mk; repeat split; (reflexivity || assumption)
    | right; right; repeat split; (reflexivity || assumption) ].
Qed.

(** C10: the selection helper returns normally, and its flag is true
    exactly when the client it returns is not [None]. *)
Theorem C10_flag_iff_client :
  forall environ genai_imported,
    exists client flag,
      get_default_client environ genai_imported = Ok (client, flag)
      /\ (flag = true <-> client <> None).
Proof.
  intros environ genai_imported.
  destruct (get_default_client_cases environ genai_imported)
    as [(key & _ & _ & _ & E)|[(key & _ & _ & _ & E)|(_ & _ & E)]];
    rewrite E; do 2 eexists; (split; [reflexivity|]);
    split; congruence.
Qed.

(** C4, as stated, fails: with GEMINI_API_KEY set to the empty string
    and the primary library importable, the helper does not return the
    primary adapter; it returns [(None, False)]. *)
Lemma C4_set_but_empty_key :
  is_set {[ "GEMINI_API_KEY" := "" ]} "GEMINI_API_KEY"
  /\ get_default_client {[ "GEMINI_API_KEY" := "" ]} true
     = Ok (None, false).
Proof.
  split.
  - exists "". reflexivity.
  - reflexivity.
Qed.

(** C4, amended: a key counts when it is set to a non-empty value.  If
    GEMINI_API_KEY is set to a non-empty value and the primary library is
    importable, the helper returns the primary adapter built from that
    key (with the default model) and true; else if MISTRAL_API_KEY is set
    to a non-empty value it returns the secondary adapter built from that
    key and true; else it returns [(None, False)]; it never raises. *)
Theorem C4_selection_order :
  forall environ genai_imported,
    let primary :=
      truthy_opt (getenv environ "GEMINI_API_KEY") && genai_imported in
    let secondary := truthy_opt (getenv environ "MISTRAL_API_KEY") in
    (primary = true ->
     exists key,
       environ !! "GEMINI_API_KEY" = Some key
       /\ get_default_client environ genai_imported
          = Ok (Some (Gemini (GeminiClient.mk key
                                GeminiClient.default_model_name)), true))
    /\ (primary = false -> secondary = true ->
        exists key,
          environ !! "MISTRAL_API_KEY" = Some key
          /\ get_default_client environ genai_imported
             = Ok (Some (Mistral (MistralClient.mk key)), true))
    /\ (primary = false -> secondary = false ->
        get_default_client environ genai_imported = Ok (None, false)).
Proof.
  intros environ genai_imported primary secondary.
  subst primary secondary.
  destruct (get_default_client_cases environ genai_imported)
    as [(key & G & TG & I & E)|[(key & P & M & TM & E)|(P & S & E)]].
  - subst genai_imported. rewrite G. simpl. rewrite TG. simpl.
    split; [|split]; try discriminate.
    intros _. exists key. split; [exact G | exact E].
  - rewrite P, M. simpl. rewrite TM.
    split; [|split]; try discriminate.
    intros _ _. exists key. split; [exact M | exact E].
  - rewrite P, S. split; [|split]; try discriminate.
    intros _ _. exact E.
Qed.

Lemma C4_selection_order_witness :
  (exists key,
      ({[ "GEMINI_API_KEY" := "g"; "MISTRAL_API_KEY" := "m" ]}
         : gmap string string) !! "GEMINI_API_KEY" = Some key
      /\ get_default_client
           {[ "GEMINI_API_KEY" := "g"; "MISTRAL_API_KEY" := "m" ]} true
         = Ok (Some (Gemini (GeminiClient.mk key
                               GeminiClient.default_model_name)), true))
  /\ (exists key,
         ({[ "GEMINI_API_KEY" := "g"; "MISTRAL_API_KEY" := "m" ]}
            : gmap string string) !! "MISTRAL_API_KEY" = Some key
         /\ get_default_client
              {[ "GEMINI_API_KEY" := "g"; "MISTRAL_API_KEY" := "m" ]} false
            = Ok (Some (Mistral (MistralClient.mk key)), true))
  /\ get_default_client ∅ true = Ok (None, false).
Proof.
  split; [|split].
  - exact (proj1 (C4_selection_order
                    {[ "GEMINI_API_KEY" := "g"; "MISTRAL_API_KEY" := "m" ]}
                    true) eq_refl).
  - exact (proj1 (proj2 (C4_selection_order
                    {[ "GEMINI_API_KEY" := "g"; "MISTRAL_API_KEY" := "m" ]}
                    false)) eq_refl eq_refl).
  - exact (proj2 (proj2 (C4_selection_order ∅ true)) eq_refl eq_refl).
Defined.

(* ------------------------------------------------------------------ *)
(** ** What a call logs *)

Lemma logger_disabled_by_default root_level :
  logging.isEnabledFor (logger root_level) logging.INFO = false.
Proof. reflexivity. Qed.

Lemma enable_llm_logging_enables lg :
  logging.isEnabledFor (enable_llm_logging logging.INFO lg) logging.INFO
  = true.
Proof. destruct lg as [name level0 [|h hs] parent]; reflexivity. Qed.

Lemma info_disabled lg m a :
  logging.isEnabledFor lg logging.INFO = false -> logging.info lg m a = [].
Proof. unfold logging.info. now intros ->. Qed.

Lemma info_enabled lg m a :
  logging.isEnabledFor lg logging.INFO = true ->
  logging.info lg m a
  = [ {| logging.logger_name := logging.name lg;
         logging.levelno := logging.INFO;
         logging.msg := m; logging.args := a |} ].
Proof. unfold logging.info. now intros ->. Qed.

(** The primary adapter logs as the spec says: nothing when the logger is
    not enabled for INFO; otherwise one "LLM Prompt" record with the
    composed content and, when a fragment was yielded, one "LLM Response"
    record. *)
Lemma gemini_log_events generate_content_stream lg self prompt content cfg :
  exists effs ys,
    GeminiClient.stream generate_content_stream lg self prompt content cfg
    = Some (effs, ys, Returned)
    /\ (logging.isEnabledFor lg logging.INFO = false ->
        log_records effs = [])
    /\ (logging.isEnabledFor lg logging.INFO = true ->
        map logging.getMessage (prompt_events effs)
        = ["LLM Prompt: " +:+ user_content prompt content]
        /\ map logging.getMessage (response_events effs)
           = (if nonempty ys then ["LLM Response: " +:+ join ys] else [])
        /\ length (log_records effs)
           = (if nonempty ys then 2 else 1)%nat).
Proof.
  destruct (gemini_call generate_content_stream lg self prompt content cfg)
    as (effs & E & L & _).
  exists effs. eexists. split; [exact E|]. rewrite L. unfold response_log.
  split; intros H.
  - rewrite !info_disabled by exact H. now destruct (nonempty _).
  - rewrite !info_enabled by exact H.
    unfold prompt_events, response_events. rewrite L.
    unfold response_log. rewrite !info_enabled by exact H.
    destruct (nonempty _); unfold logging.getMessage; simpl;
      rewrite ?append_nil_r; repeat split; reflexivity.
Qed.

(** The secondary adapter: nothing when the logger is not enabled for
    INFO; otherwise one "LLM data has run" record, no "LLM Prompt"
    record, and one "LLM Response" record when the loop collected a
    fragment. *)
Lemma mistral_log_events stream_async lg self prompt content cfg :
  exists effs ys,
    MistralClient.stream stream_async lg self prompt content cfg
    = Some (effs, ys, Returned)
    /\ (logging.isEnabledFor lg logging.INFO = false ->
        log_records effs = [])
    /\ (logging.isEnabledFor lg logging.INFO = true ->
        prompt_events effs = []
        /\ map logging.getMessage (response_events effs)
           = (if nonempty (removelast ys)
              then ["LLM Response: " +:+ join (removelast ys)] else [])
        /\ map logging.getMessage (log_records effs)
           = "LLM data has run"
             :: (if nonempty (removelast ys)
                 then ["LLM Response: " +:+ join (removelast ys)] else [])).
Proof.
  destruct (mistral_call stream_async lg self prompt content cfg)
    as (effs & E & L & _).
  exists effs. eexists. split; [exact E|]. rewrite removelast_last.
  split; intros H.
  - rewrite L. unfold response_log.
    rewrite !info_disabled by exact H. now destruct (nonempty _).
  - unfold prompt_events, response_events. rewrite L.
    unfold response_log. rewrite !info_enabled by exact H.
    destruct (nonempty _); unfold logging.getMessage; simpl;
      rewrite ?append_nil_r; repeat split; reflexivity.
Qed.

(** C1: on either adapter a whole call logs an "LLM Response" record only
    at the end of the stream, only when the logger is enabled and a
    fragment was accumulated, and its message is then the concatenation,
    in yield order, of the fragments yielded; for the secondary adapter,
    of the fragments yielded before its trailing full-response
    fragment. *)
Theorem C1_response_is_concatenation :
  forall generate_content_stream stream_async lg gself mself
         prompt content cfg,
    (exists effs ys,
        GeminiClient.stream generate_content_stream lg gself
          prompt content cfg
        = Some (effs, ys, Returned)
        /\ map logging.getMessage (response_events effs)
           = if logging.isEnabledFor lg logging.INFO && nonempty ys
             then ["LLM Response: " +:+ join ys] else [])
    /\ (exists effs ys,
           MistralClient.stream stream_async lg mself prompt content cfg
           = Some (effs, ys, Returned)
           /\ map logging.getMessage (response_events effs)
              = if logging.isEnabledFor lg logging.INFO
                   && nonempty (removelast ys)
                then ["LLM Response: " +:+ join (removelast ys)] else []).
Proof.
  intros gcs sa lg gself mself prompt content cfg. split.
  - destruct (gemini_log_events gcs lg gself prompt content cfg)
      as (effs & ys & E & Off & On).
    exists effs, ys. split; [exact E|].
    destruct (logging.isEnabledFor lg logging.INFO).
    + now destruct (On eq_refl) as (_ & R & _).
    + unfold response_events. now rewrite (Off eq_refl).
  - destruct (mistral_log_events sa lg mself prompt content cfg)
      as (effs & ys & E & Off & On).
    exists effs, ys. split; [exact E|].
    destruct (logging.isEnabledFor lg logging.INFO).
    + now destruct (On eq_refl) as (_ & R & _).
    + unfold response_events. now rewrite (Off eq_refl).
Qed.

(** C3: a whole call on the secondary adapter yields the fragments of the
    incremental chunks and then exactly one more, the concatenation of
    all of them; step by step, once the chunks are exhausted the next
    resumption yields the concatenation of what was collected, and the
    one after it ends the iteration. *)
Theorem C3_trailing_full_response :
  forall stream_async lg self prompt content cfg,
    (exists effs,
        MistralClient.stream stream_async lg self prompt content cfg
        = Some (effs,
                MistralClient.fragments
                  (stream_async
                     (MistralClient.request self prompt content cfg))
                ++ [join (MistralClient.fragments
                            (stream_async
                               (MistralClient.request self prompt
                                  content cfg)))],
                Returned))
    /\ (forall collected,
           exists eff,
             MistralClient.anext stream_async lg
               (MistralClient.Suspended [] collected)
             = (eff, Yield (join collected), MistralClient.Final))
    /\ MistralClient.anext stream_async lg MistralClient.Final
       = ([], StopAsyncIteration, MistralClient.Finished).
Proof.
  intros sa lg self prompt content cfg. split; [|split].
  - destruct (mistral_call sa lg self prompt content cfg) as (effs & E & _).
    now exists effs.
  - intros collected. eexists. reflexivity.
  - reflexivity.
Qed.

(** C6 on the secondary adapter, at a concrete call with logging enabled
    at INFO: prompt "Summarise", content "page", one streamed delta "Hi".
    The call logs "LLM data has run" and the response; no record is an
    "LLM Prompt" event and none carries the composed content. *)
Theorem C6_secondary_adapter_logs_no_prompt :
  exists effs,
    MistralClient.stream (fun _ => [delta_chunk "Hi"])
      (enable_llm_logging logging.INFO (logger logging.WARNING))
      (MistralClient.mk "k") "Summarise" "page" None
    = Some (effs, ["Hi"; "Hi"], Returned)
    /\ map logging.getMessage (log_records effs)
       = ["LLM data has run"; "LLM Response: Hi"]
    /\ prompt_events effs = [].
Proof. eexists. split; [reflexivity|]. split; reflexivity. Qed.

(* ------------------------------------------------------------------ *)
(** ** Incremental delivery and malformed chunks *)

(** C7, as stated, fails: from a chunk whose text is the empty string the
    extraction succeeds, yet the fragment is neither accumulated nor
    yielded; the resumption goes on to the next chunk. *)
Lemma C7_empty_fragment_withheld :
  GeminiClient.extract_text (text_chunk "") = Ok (Some "")
  /\ GeminiClient.anext (fun _ => []) (logger logging.WARNING)
       (GeminiClient.Suspended [text_chunk ""; text_chunk "lo"] ["Hel"])
     = ([], Yield "lo", GeminiClient.Suspended [] ["Hel"; "lo"])
  /\ GeminiClient.stream (fun _ => [text_chunk ""])
       (logger logging.WARNING)
       (GeminiClient.mk "k" GeminiClient.default_model_name)
       "Summarise" "" None
     = Some ([Call_generate_content_stream
                (GeminiClient.request
                   (GeminiClient.mk "k" GeminiClient.default_model_name)
                   "Summarise" "" None)],
             [], Returned).
Proof. repeat split. Qed.

(** C7, amended: for every chunk from which the primary adapter extracts
    a non-empty text, the resumption that reaches the chunk (after chunks
    that give no fragment) appends the text to [collected] and yields it
    at once, before reading any later chunk; this holds on a resumption
    after a [yield] and on the first one. *)
Theorem C7_fragment_yielded_at_once :
  forall generate_content_stream lg chunk text,
    GeminiClient.extract_text chunk = Ok (Some text) ->
    text <> "" ->
    (forall skipped rest collected,
        GeminiClient.fragments skipped = [] ->
        GeminiClient.anext generate_content_stream lg
          (GeminiClient.Suspended (skipped ++ chunk :: rest) collected)
        = ([], Yield text,
           GeminiClient.Suspended rest (collected ++ [text])))
    /\ (forall self prompt content cfg skipped rest,
           generate_content_stream
             (GeminiClient.request self prompt content cfg)
           = skipped ++ chunk :: rest ->
           GeminiClient.fragments skipped = [] ->
           exists eff,
             GeminiClient.anext generate_content_stream lg
               (GeminiClient.Created self prompt content cfg)
             = (eff, Yield text, GeminiClient.Suspended rest [text])).
Proof.
  intros gcs lg chunk text X T.
  assert (F : GeminiClient.fragment chunk = Some text).
  { unfold GeminiClient.fragment. rewrite X.
    now rewrite (proj2 (truthy_true text) T). }
  split.
  - intros skipped rest collected S. simpl.
    rewrite gemini_loop_skip_many by exact S.
    now apply gemini_loop_yield.
  - intros self prompt content cfg skipped rest V S. simpl. rewrite V.
    rewrite gemini_loop_skip_many by exact S.
    rewrite (gemini_loop_yield lg chunk rest [] text F).
    eexists. reflexivity.
Qed.

Lemma C7_fragment_yielded_at_once_witness :
  GeminiClient.anext
    (fun _ => [no_candidates; text_chunk "Hel"; text_chunk "lo"])
    (logger logging.WARNING)
    (GeminiClient.Suspended
       ([no_candidates; text_chunk ""] ++ text_chunk "Hel" :: [text_chunk "lo"])
       [])
  = ([], Yield "Hel", GeminiClient.Suspended [text_chunk "lo"] ([] ++ ["Hel"]))
  /\ (exists eff,
         GeminiClient.anext
           (fun _ => [no_candidates; text_chunk "Hel"; text_chunk "lo"])
           (logger logging.WARNING)
           (GeminiClient.Created
              (GeminiClient.mk "k" GeminiClient.default_model_name)
              "Summarise" "" None)
         = (eff, Yield "Hel",
            GeminiClient.Suspended [text_chunk "lo"] ["Hel"])).
Proof.
  pose proof (C7_fragment_yielded_at_once
                (fun _ => [no_candidates; text_chunk "Hel"; text_chunk "lo"])
                (logger logging.WARNING) (text_chunk "Hel") "Hel"
                eq_refl ltac:(discriminate)) as (A & B).
  split.
  - exact (A [no_candidates; text_chunk ""] [text_chunk "lo"] [] eq_refl).
  - exact (B (GeminiClient.mk "k" GeminiClient.default_model_name)
             "Summarise" "" None [no_candidates] [text_chunk "lo"]
             eq_refl eq_refl).
Defined.

(** C5, as stated, fails on the primary adapter: with a well-formed chunk
    of empty text, a malformed chunk and a well-formed chunk "b", the
    call yields "b" only. *)
Lemma C5_empty_fragment_not_yielded :
  GeminiClient.extract_text (text_chunk "") = Ok (Some "")
  /\ GeminiClient.extract_text no_candidates = Raise IndexError
  /\ GeminiClient.extract_text (text_chunk "b") = Ok (Some "b")
  /\ GeminiClient.stream
       (fun _ => [text_chunk ""; no_candidates; text_chunk "b"])
       (logger logging.WARNING)
       (GeminiClient.mk "k" GeminiClient.default_model_name)
       "Summarise" "" None
     = Some ([Call_generate_content_stream
                (GeminiClient.request
                   (GeminiClient.mk "k" GeminiClient.default_model_name)
                   "Summarise" "" None)],
             ["b"], Returned).
Proof. repeat split. Qed.

Lemma gemini_fragments_without chunks_before bad chunks_after e :
  GeminiClient.extract_text bad = Raise e ->
  GeminiClient.fragments (chunks_before ++ bad :: chunks_after)
  = GeminiClient.fragments (chunks_before ++ chunks_after).
Proof.
  intros X. unfold GeminiClient.fragments. rewrite !omap_app. f_equal.
  simpl. unfold GeminiClient.fragment at 1. now rewrite X.
Qed.

Lemma mistral_fragments_without chunks_before bad chunks_after e :
  MistralClient.extract_content bad = Raise e ->
  MistralClient.fragments (chunks_before ++ bad :: chunks_after)
  = MistralClient.fragments (chunks_before ++ chunks_after).
Proof.
  intros X. unfold MistralClient.fragments. rewrite !omap_app. f_equal.
  simpl. unfold MistralClient.fragment at 1. now rewrite X.
Qed.

(** C5, amended: when the vendor streams a well-formed chunk, a chunk
    whose extraction raises, and another well-formed chunk, a whole call
    returns normally and yields the two fragments in their order: on the
    primary adapter provided both texts are non-empty, and exactly those
    two; on the secondary adapter for any two texts, followed by its
    trailing concatenation.  More generally a chunk whose extraction
    raises, anywhere in the stream, is skipped: the call returns normally
    with the fragments of the stream without that chunk. *)
Theorem C5_malformed_chunk_skipped :
  forall generate_content_stream stream_async lg gself mself
         prompt content cfg,
    (forall w1 bad w2 t1 t2 e,
        generate_content_stream
          (GeminiClient.request gself prompt content cfg) = [w1; bad; w2] ->
        GeminiClient.extract_text w1 = Ok (Some t1) -> t1 <> "" ->
        GeminiClient.extract_text bad = Raise e ->
        GeminiClient.extract_text w2 = Ok (Some t2) -> t2 <> "" ->
        exists effs,
          GeminiClient.stream generate_content_stream lg gself
            prompt content cfg
          = Some (effs, [t1; t2], Returned))
    /\ (forall w1 bad w2 t1 t2 e,
           stream_async (MistralClient.request mself prompt content cfg)
           = [w1; bad; w2] ->
           MistralClient.extract_content w1 = Ok (Some t1) ->
           MistralClient.extract_content bad = Raise e ->
           MistralClient.extract_content w2 = Ok (Some t2) ->
           exists effs,
             MistralClient.stream stream_async lg mself prompt content cfg
             = Some (effs, [t1; t2; t1 +:+ t2], Returned))
    /\ (forall chunks_before bad chunks_after e,
           generate_content_stream
             (GeminiClient.request gself prompt content cfg)
           = chunks_before ++ bad :: chunks_after ->
           GeminiClient.extract_text bad = Raise e ->
           exists effs,
             GeminiClient.stream generate_content_stream lg gself
               prompt content cfg
             = Some (effs,
                     GeminiClient.fragments (chunks_before ++ chunks_after),
                     Returned))
    /\ (forall chunks_before bad chunks_after e,
           stream_async (MistralClient.request mself prompt content cfg)
           = chunks_before ++ bad :: chunks_after ->
           MistralClient.extract_content bad = Raise e ->
           exists effs,
             MistralClient.stream stream_async lg mself prompt content cfg
             = Some (effs,
                     MistralClient.fragments (chunks_before ++ chunks_after)
                     ++ [join (MistralClient.fragments
                                 (chunks_before ++ chunks_after))],
                     Returned)).
Proof.
  intros gcs sa lg gself mself prompt content cfg.
  destruct (gemini_call gcs lg gself prompt content cfg) as (ge & GE & _).
  destruct (mistral_call sa lg mself prompt content cfg) as (me & ME & _).
  split; [|split; [|split]].
  - intros w1 bad w2 t1 t2 e V X1 T1 Xb X2 T2. exists ge.
    rewrite GE, V. unfold GeminiClient.fragments. simpl.
    unfold GeminiClient.fragment. rewrite X1, Xb, X2.
    now rewrite (proj2 (truthy_true t1) T1), (proj2 (truthy_true t2) T2).
  - intros w1 bad w2 t1 t2 e V X1 Xb X2. exists me.
    rewrite ME, V. unfold MistralClient.fragments. simpl.
    unfold MistralClient.fragment. rewrite X1, Xb, X2. reflexivity.
  - intros chunks_before bad chunks_after e V X. exists ge.
    now rewrite GE, V, (gemini_fragments_without _ _ _ _ X).
  - intros chunks_before bad chunks_after e V X. exists me.
    now rewrite ME, V, (mistral_fragments_without _ _ _ _ X).
Qed.

Lemma C5_malformed_chunk_skipped_witness :
  (exists effs,
      GeminiClient.stream
        (fun _ => [text_chunk "Hel"; no_candidates; text_chunk "lo"])
        (logger logging.WARNING)
        (GeminiClient.mk "k" GeminiClient.default_model_name)
        "Summarise" "" None
      = Some (effs, ["Hel"; "lo"], Returned))
  /\ (exists effs,
         MistralClient.stream
           (fun _ => [delta_chunk "Hel"; no_choices; delta_chunk "lo"])
           (logger logging.WARNING) (MistralClient.mk "k")
           "Summarise" "" None
         = Some (effs, ["Hel"; "lo"; "Hel" +:+ "lo"], Returned))
  /\ (exists effs,
         GeminiClient.stream
           (fun _ => [text_chunk "Hel"; no_candidates; text_chunk "lo"])
           (logger logging.WARNING)
           (GeminiClient.mk "k" GeminiClient.default_model_name)
           "Summarise" "" None
         = Some (effs,
                 GeminiClient.fragments
                   ([text_chunk "Hel"] ++ [text_chunk "lo"]),
                 Returned))
  /\ (exists effs,
         MistralClient.stream
           (fun _ => [delta_chunk "Hel"; no_choices; delta_chunk "lo"])
           (logger logging.WARNING) (MistralClient.mk "k")
           "Summarise" "" None
         = Some (effs,
                 MistralClient.fragments
                   ([delta_chunk "Hel"] ++ [delta_chunk "lo"])
                 ++ [join (MistralClient.fragments
                             ([delta_chunk "Hel"] ++ [delta_chunk "lo"]))],
                 Returned)).
Proof.
  pose proof (C5_malformed_chunk_skipped
                (fun _ => [text_chunk "Hel"; no_candidates; text_chunk "lo"])
                (fun _ => [delta_chunk "Hel"; no_choices; delta_chunk "lo"])
                (logger logging.WARNING)
                (GeminiClient.mk "k" GeminiClient.default_model_name)
                (MistralClient.mk "k") "Summarise" "" None)
    as (G & M & G' & M').
  split; [|split; [|split]].
  - exact (G (text_chunk "Hel") no_candidates (text_chunk "lo")
             "Hel" "lo" IndexError eq_refl eq_refl ltac:(discriminate)
             eq_refl eq_refl ltac:(discriminate)).
  - exact (M (delta_chunk "Hel") no_choices (delta_chunk "lo")
             "Hel" "lo" IndexError eq_refl eq_refl eq_refl eq_refl).
  - exact (G' [text_chunk "Hel"] no_candidates [text_chunk "lo"]
              IndexError eq_refl eq_refl).
  - exact (M' [delta_chunk "Hel"] no_choices [delta_chunk "lo"]
              IndexError eq_refl eq_refl).
Defined.

(* ------------------------------------------------------------------ *)
(** ** More on the two generators *)

Lemma join_cons (x : string) (l : list string) :
  join (x :: l) = x +:+ join l.
Proof.
  unfold join. destruct l as [|y l]; simpl.
  - now rewrite append_nil_r.
  - reflexivity.
Qed.

Lemma append_assoc (a b c : string) : (a +:+ b) +:+ c = a +:+ (b +:+ c).
Proof. induction a as [|x a IH]; simpl; [reflexivity | now rewrite IH]. Qed.

Lemma join_app (l1 l2 : list string) :
  join (l1 ++ l2) = join l1 +:+ join l2.
Proof.
  induction l1 as [|x l1 IH]; [reflexivity|].
  rewrite <- app_comm_cons, !join_cons, IH. now rewrite append_assoc.
Qed.

Lemma omap_length_le {A B} (f : A -> option B) (l : list A) :
  (length (omap f l) <= length l)%nat.
Proof.
  induction l as [|x l IH]; [simpl; lia|].
  change (omap f (x :: l))
    with (match f x with Some y => y :: omap f l | None => omap f l end).
  destruct (f x); simpl length; lia.
Qed.

Lemma gemini_fragment_Some chunk text :
  GeminiClient.fragment chunk = Some text <->
  GeminiClient.extract_text chunk = Ok (Some text) /\ text <> "".
Proof.
  unfold GeminiClient.fragment.
  destruct (GeminiClient.extract_text chunk) as [[t|]|e].
  - destruct t as [|c t]; simpl; split.
    + discriminate.
    + intros [[= <-] H]. congruence.
    + intros [= <-]. split; [reflexivity | discriminate].
    + now intros [[= <-] _].
  - split; [discriminate | now intros [? _]].
  - split; [discriminate | now intros [? _]].
Qed.

Lemma mistral_fragment_Some chunk text :
  MistralClient.fragment chunk = Some text <->
  MistralClient.extract_content chunk = Ok (Some text).
Proof.
  unfold MistralClient.fragment.
  destruct (MistralClient.extract_content chunk) as [[t|]|e];
    split; congruence.
Qed.

(** X1: whatever the vendor streams, a whole call on the primary adapter
    returns normally, yields at most one fragment per chunk, and every
    fragment it yields is non-empty and is the text extracted from some
    chunk of the stream: it never yields an empty string and never makes
    text up. *)
Theorem gemini_yields_nonempty_chunk_texts :
  forall generate_content_stream lg self prompt content cfg,
    exists effs ys,
      GeminiClient.stream generate_content_stream lg self prompt content cfg
      = Some (effs, ys, Returned)
      /\ (length ys
          <= length (generate_content_stream
                       (GeminiClient.request self prompt content cfg)))%nat
      /\ Forall (fun y =>
                   y <> ""
                   /\ exists chunk,
                        In chunk (generate_content_stream
                                    (GeminiClient.request self prompt
                                       content cfg))
                        /\ GeminiClient.extract_text chunk = Ok (Some y))
                ys.
Proof.
  intros gcs lg self prompt content cfg.
  destruct (gemini_call gcs lg self prompt content cfg) as (effs & E & _).
  exists effs. eexists. split; [exact E|]. split.
  - apply omap_length_le.
  - apply Forall_forall. intros y Hy.
    apply list_elem_of_omap in Hy as (chunk & Hin & F).
    apply gemini_fragment_Some in F as [X T].
    split; [exact T|]. exists chunk. split; [|exact X].
    now apply list_elem_of_In.
Qed.


(** X3: when no chunk of the stream gives a fragment (the empty stream
    for one), the primary adapter yields nothing, while the secondary
    adapter still yields one fragment, the empty string; neither logs an
    "LLM Response" record. *)
Theorem no_fragment_streams :
  forall generate_content_stream stream_async lg gself mself
         prompt content cfg,
    GeminiClient.fragments
      (generate_content_stream
         (GeminiClient.request gself prompt content cfg)) = [] ->
    MistralClient.fragments
      (stream_async (MistralClient.request mself prompt content cfg)) = [] ->
    (exists effs,
        GeminiClient.stream generate_content_stream lg gself
          prompt content cfg
        = Some (effs, [], Returned)
        /\ response_events effs = [])
    /\ (exists effs,
           MistralClient.stream stream_async lg mself prompt content cfg
           = Some (effs, [""], Returned)
           /\ response_events effs = []).
Proof.
  intros gcs sa lg gself mself prompt content cfg G M. split.
  - destruct (gemini_call gcs lg gself prompt content cfg)
      as (effs & E & L & _).
    rewrite G in E, L. exists effs. split; [exact E|].
    unfold response_events. rewrite L. unfold response_log, logging.info.
    simpl. now destruct (logging.isEnabledFor lg logging.INFO).
  - destruct (mistral_call sa lg mself prompt content cfg)
      as (effs & E & L & _).
    rewrite M in E, L. exists effs. split; [exact E|].
    unfold response_events. rewrite L. unfold response_log, logging.info.
    simpl. now destruct (logging.isEnabledFor lg logging.INFO).
Qed.

Lemma no_fragment_streams_witness :
  (exists effs,
      GeminiClient.stream (fun _ => [no_candidates; text_chunk ""])
        (enable_llm_logging logging.INFO (logger logging.WARNING))
        (GeminiClient.mk "k" GeminiClient.default_model_name)
        "Summarise" "page" None
      = Some (effs, [], Returned)
      /\ response_events effs = [])
  /\ (exists effs,
         MistralClient.stream (fun _ => [no_choices])
           (enable_llm_logging logging.INFO (logger logging.WARNING))
           (MistralClient.mk "k") "Summarise" "page" None
         = Some (effs, [""], Returned)
         /\ response_events effs = []).
Proof.
  exact (no_fragment_streams (fun _ => [no_candidates; text_chunk ""])
           (fun _ => [no_choices])
           (enable_llm_logging logging.INFO (logger logging.WARNING))
           (GeminiClient.mk "k" GeminiClient.default_model_name)
           (MistralClient.mk "k") "Summarise" "page" None eq_refl eq_refl).
Defined.

(** X4: a consumer that concatenates everything the secondary adapter
    yields gets the response twice: the concatenation of all fragments is
    the concatenation of the incremental ones followed by itself. *)
Theorem mistral_concatenation_doubles :
  forall stream_async lg self prompt content cfg,
    exists effs ys,
      MistralClient.stream stream_async lg self prompt content cfg
      = Some (effs, ys, Returned)
      /\ join ys = join (removelast ys) +:+ join (removelast ys).
Proof.
  intros sa lg self prompt content cfg.
  destruct (mistral_call sa lg self prompt content cfg) as (effs & E & _).
  exists effs. eexists. split; [exact E|].
  now rewrite removelast_last, join_app.
Qed.

Lemma join_filter_truthy (ts : list string) :
  join (List.filter truthy ts) = join ts.
Proof.
  induction ts as [|t ts IH]; [reflexivity|].
  simpl List.filter. destruct t as [|c t]; simpl truthy; cbv iota.
  - now rewrite IH, join_cons.
  - now rewrite !join_cons, IH.
Qed.

Lemma gemini_fragments_of_texts chunks ts :
  Forall2 (fun chunk t => GeminiClient.extract_text chunk = Ok (Some t))
          chunks ts ->
  GeminiClient.fragments chunks = List.filter truthy ts.
Proof.
  induction 1 as [|chunk t chunks ts X _ IH]; [reflexivity|].
  unfold GeminiClient.fragments in *.
  change (omap GeminiClient.fragment (chunk :: chunks))
    with (match GeminiClient.fragment chunk with
          | Some y => y :: omap GeminiClient.fragment chunks
          | None => omap GeminiClient.fragment chunks
          end).
  unfold GeminiClient.fragment at 1. rewrite X. simpl List.filter.
  destruct (truthy t); now rewrite IH.
Qed.

Lemma mistral_fragments_of_texts chunks ts :
  Forall2 (fun chunk t => MistralClient.extract_content chunk = Ok (Some t))
          chunks ts ->
  MistralClient.fragments chunks = ts.
Proof.
  induction 1 as [|chunk t chunks ts X _ IH]; [reflexivity|].
  unfold MistralClient.fragments in *.
  change (omap MistralClient.fragment (chunk :: chunks))
    with (match MistralClient.fragment chunk with
          | Some y => y :: omap MistralClient.fragment chunks
          | None => omap MistralClient.fragment chunks
          end).
  unfold MistralClient.fragment at 1. rewrite X. now rewrite IH.
Qed.

(** X5: when every chunk of the stream is well-formed, with texts [ts] in
    stream order, the primary adapter yields the non-empty texts in that
    order, and their concatenation is the concatenation of all of [ts]
    (dropping empty texts loses nothing of the response); the secondary
    adapter yields all of [ts], empty ones included, and then their
    concatenation. *)
Theorem well_formed_streams :
  forall generate_content_stream stream_async lg gself mself
         prompt content cfg ts,
    Forall2 (fun chunk t => GeminiClient.extract_text chunk = Ok (Some t))
            (generate_content_stream
               (GeminiClient.request gself prompt content cfg)) ts ->
    Forall2 (fun chunk t => MistralClient.extract_content chunk = Ok (Some t))
            (stream_async (MistralClient.request mself prompt content cfg))
            ts ->
    (exists effs,
        GeminiClient.stream generate_content_stream lg gself
          prompt content cfg
        = Some (effs, List.filter truthy ts, Returned)
        /\ join (List.filter truthy ts) = join ts)
    /\ (exists effs,
           MistralClient.stream stream_async lg mself prompt content cfg
           = Some (effs, ts ++ [join ts], Returned)).
Proof.
  intros gcs sa lg gself mself prompt content cfg ts G M. split.
  - destruct (gemini_call gcs lg gself prompt content cfg) as (effs & E & _).
    rewrite (gemini_fragments_of_texts _ _ G) in E.
    exists effs. split; [exact E | apply join_filter_truthy].
  - destruct (mistral_call sa lg mself prompt content cfg) as (effs & E & _).
    rewrite (mistral_fragments_of_texts _ _ M) in E.
    now exists effs.
Qed.

Lemma well_formed_streams_witness :
  (exists effs,
      GeminiClient.stream
        (fun _ => [text_chunk "Hel"; text_chunk ""; text_chunk "lo"])
        (logger logging.WARNING)
        (GeminiClient.mk "k" GeminiClient.default_model_name)
        "Summarise" "" None
      = Some (effs, List.filter truthy ["Hel"; ""; "lo"], Returned)
      /\ join (List.filter truthy ["Hel"; ""; "lo"]) = join ["Hel"; ""; "lo"])
  /\ (exists effs,
         MistralClient.stream
           (fun _ => [delta_chunk "Hel"; delta_chunk ""; delta_chunk "lo"])
           (logger logging.WARNING) (MistralClient.mk "k")
           "Summarise" "" None
         = Some (effs, ["Hel"; ""; "lo"] ++ [join ["Hel"; ""; "lo"]],
                 Returned)).
Proof.
  apply (well_formed_streams
           (fun _ => [text_chunk "Hel"; text_chunk ""; text_chunk "lo"])
           (fun _ => [delta_chunk "Hel"; delta_chunk ""; delta_chunk "lo"])
           (logger logging.WARNING)
           (GeminiClient.mk "k" GeminiClient.default_model_name)
           (MistralClient.mk "k") "Summarise" "" None ["Hel"; ""; "lo"]).
  - repeat constructor.
  - repeat constructor.
Defined.

Lemma gemini_loop_inversion lg chunks : forall collected eff r st',
  GeminiClient.loop lg chunks collected = (eff, r, st') ->
  match r with
  | Yield text =>
      eff = []
      /\ exists skipped chunk rest,
           chunks = skipped ++ chunk :: rest
           /\ GeminiClient.fragments skipped = []
           /\ GeminiClient.fragment chunk = Some text
           /\ st' = GeminiClient.Suspended rest (collected ++ [text])
  | StopAsyncIteration =>
      GeminiClient.fragments chunks = []
      /\ eff = map Log (response_log lg collected)
      /\ st' = GeminiClient.Finished
  | Raised _ => False
  end.
Proof.
  induction chunks as [|c rest IH]; intros collected eff r st' L.
  - simpl in L. injection L as <- <- <-. repeat split.
  - destruct (GeminiClient.fragment c) as [text|] eqn:F.
    + rewrite (gemini_loop_yield lg c rest collected text F) in L.
      injection L as <- <- <-. split; [reflexivity|].
      exists [], c, rest. repeat split. exact F.
    + rewrite (gemini_loop_skip lg c rest collected F) in L.
      specialize (IH _ _ _ _ L). destruct r as [text| |e].
      * destruct IH as (-> & skipped & chunk & rest' & -> & S & F' & ->).
        split; [reflexivity|].
        exists (c :: skipped), chunk, rest'. repeat split; try assumption.
        unfold GeminiClient.fragments in *.
        change (omap GeminiClient.fragment (c :: skipped))
          with (match GeminiClient.fragment c with
                | Some y => y :: omap GeminiClient.fragment skipped
                | None => omap GeminiClient.fragment skipped
                end).
        now rewrite F.
      * destruct IH as (S & -> & ->). repeat split.
        unfold GeminiClient.fragments in *.
        change (omap GeminiClient.fragment (c :: rest))
          with (match GeminiClient.fragment c with
                | Some y => y :: omap GeminiClient.fragment rest
                | None => omap GeminiClient.fragment rest
                end).
        now rewrite F.
      * exact IH.
Qed.

(** X6: what a resumption of the primary adapter's generator after a
    [yield] can do.  If it yields [text], it had no effect at all (no log
    record), it read the chunks up to the one [text] was extracted from
    and no further, the chunks before that one gave no fragment, [text]
    is non-empty and was appended to [collected].  If it ends the
    iteration, no remaining chunk gave a fragment and its only effect is
    the "LLM Response" record for what was collected.  It never raises. *)
Theorem gemini_resumption_inversion :
  forall generate_content_stream lg chunks collected eff r st',
    GeminiClient.anext generate_content_stream lg
      (GeminiClient.Suspended chunks collected) = (eff, r, st') ->
    match r with
    | Yield text =>
        eff = [] /\ text <> ""
        /\ exists skipped chunk rest,
             chunks = skipped ++ chunk :: rest
             /\ GeminiClient.fragments skipped = []
             /\ GeminiClient.extract_text chunk = Ok (Some text)
             /\ st' = GeminiClient.Suspended rest (collected ++ [text])
    | StopAsyncIteration =>
        GeminiClient.fragments chunks = []
        /\ eff = map Log (response_log lg collected)
        /\ st' = GeminiClient.Finished
    | Raised _ => False
    end.
Proof.
  intros gcs lg chunks collected eff r st' A.
  apply gemini_loop_inversion in A. destruct r as [text| |e];
    [|exact A|exact A].
  destruct A as (-> & skipped & chunk & rest & -> & S & F & ->).
  apply gemini_fragment_Some in F as [X T].
  split; [reflexivity|]. split; [exact T|].
  exists skipped, chunk, rest. repeat split; assumption.
Qed.

Lemma gemini_resumption_inversion_witness :
  [] = @nil effect /\ "lo" <> ""
  /\ exists skipped chunk rest,
       [no_candidates; text_chunk "lo"; text_chunk "!"]
       = skipped ++ chunk :: rest
       /\ GeminiClient.fragments skipped = []
       /\ GeminiClient.extract_text chunk = Ok (Some "lo")
       /\ GeminiClient.Suspended [text_chunk "!"] ["Hel"; "lo"]
          = GeminiClient.Suspended rest (["Hel"] ++ ["lo"]).
Proof.
  exact (gemini_resumption_inversion (fun _ => [])
           (enable_llm_logging logging.INFO (logger logging.WARNING))
           [no_candidates; text_chunk "lo"; text_chunk "!"] ["Hel"]
           [] (Yield "lo")
           (GeminiClient.Suspended [text_chunk "!"] ["Hel"; "lo"])
           eq_refl).
Defined.

Lemma printed_by_fragment chunk :
  match MistralClient.fragment chunk with
  | Some text =>
      printed chunk = [Print_event_received chunk; Print_content text]
  | None =>
      exists e, printed chunk = [Print_event_received chunk; Print_error e]
  end.
Proof.
  unfold MistralClient.fragment, printed, MistralClient.try_block.
  destruct (MistralClient.extract_content chunk) as [[text|]|e]; simpl;
    eauto.
Qed.

Lemma printed_projections chunks :
  announced (concat (map printed chunks)) = chunks
  /\ printed_contents (concat (map printed chunks))
     = MistralClient.fragments chunks
  /\ (length (printed_errors (concat (map printed chunks)))
      + length (MistralClient.fragments chunks) = length chunks)%nat.
Proof.
  induction chunks as [|c chunks (IA & IC & IE)]; [repeat split|].
  unfold announced, printed_contents, printed_errors,
    MistralClient.fragments in *.
  simpl concat. rewrite !omap_app.
  change (omap MistralClient.fragment (c :: chunks))
    with (match MistralClient.fragment c with
          | Some y => y :: omap MistralClient.fragment chunks
          | None => omap MistralClient.fragment chunks
          end).
  pose proof (printed_by_fragment c) as P.
  destruct (MistralClient.fragment c) as [text|].
  - rewrite P, IA, IC. simpl. repeat split. lia.
  - destruct P as [e ->]. rewrite IA, IC. simpl. repeat split. lia.
Qed.

Lemma projections_Log (l : list logging.LogRecord) :
  announced (map Log l) = []
  /\ printed_contents (map Log l) = []
  /\ printed_errors (map Log l) = [].
Proof. induction l as [|r l IH]; [repeat split | exact IH]. Qed.

(** X7: the secondary adapter writes to stdout on its own.  In a whole
    call it announces every chunk of the stream once, in stream order
    ("Event received:"), prints every fragment it yields incrementally,
    in order, and prints one "Error processing event" line for each chunk
    that gave no fragment: every chunk is either yielded or reported. *)
Theorem mistral_prints :
  forall stream_async lg self prompt content cfg,
    exists effs ys,
      MistralClient.stream stream_async lg self prompt content cfg
      = Some (effs, ys, Returned)
      /\ announced effs
         = stream_async (MistralClient.request self prompt content cfg)
      /\ printed_contents effs = removelast ys
      /\ (length (printed_errors effs) + length (removelast ys)
          = length (stream_async
                      (MistralClient.request self prompt content cfg)))%nat.
Proof.
  intros sa lg self prompt content cfg.
  eexists. eexists. split; [apply stream_Mistral|].
  rewrite removelast_last.
  set (chunks := sa (MistralClient.request self prompt content cfg)).
  destruct (printed_projections chunks) as (A & C & E).
  destruct (projections_Log (logging.info lg "LLM data has run" []))
    as (A1 & C1 & E1).
  destruct (projections_Log
              (response_log lg (MistralClient.fragments chunks)))
    as (A2 & C2 & E2).
  unfold announced, printed_contents, printed_errors in *.
  change (omap ?f (Call_stream_async ?r :: ?l)) with (omap f l).
  rewrite !omap_app, A, C, A1, C1, E1, A2, C2, E2, !app_nil_r.
  simpl. repeat split. exact E.
Qed.

(* ------------------------------------------------------------------ *)
(** ** More on logging *)

(** X8: logging is off by default.  With the module's logger as the
    import leaves it (level CRITICAL + 1, whatever the root logger's
    level), a whole call on either adapter hands no record to any
    handler. *)
Theorem no_log_record_by_default :
  forall generate_content_stream stream_async root_level gself mself
         prompt content cfg,
    (exists effs ys,
        GeminiClient.stream generate_content_stream (logger root_level)
          gself prompt content cfg
        = Some (effs, ys, Returned)
        /\ log_records effs = [])
    /\ (exists effs ys,
           MistralClient.stream stream_async (logger root_level)
             mself prompt content cfg
           = Some (effs, ys, Returned)
           /\ log_records effs = []).
Proof.
  intros gcs sa root_level gself mself prompt content cfg. split.
  - destruct (gemini_log_events gcs (logger root_level) gself
                prompt content cfg) as (effs & ys & E & Off & _).
    exists effs, ys. split; [exact E|].
    apply Off, logger_disabled_by_default.
  - destruct (mistral_log_events sa (logger root_level) mself
                prompt content cfg) as (effs & ys & E & Off & _).
    exists effs, ys. split; [exact E|].
    apply Off, logger_disabled_by_default.
Qed.

(** X9: after [enable_llm_logging()] (level INFO) on any logger, a whole
    call on the primary adapter logs, in this order, one record
    "LLM Prompt: " followed by the composed content and, exactly when it
    yielded a fragment, one record "LLM Response: " followed by the
    concatenation of the fragments; all at level INFO. *)
Theorem gemini_logs_prompt_then_response :
  forall generate_content_stream lg0 self prompt content cfg,
    exists effs ys,
      GeminiClient.stream generate_content_stream
        (enable_llm_logging logging.INFO lg0) self prompt content cfg
      = Some (effs, ys, Returned)
      /\ map logging.getMessage (log_records effs)
         = ("LLM Prompt: " +:+ user_content prompt content)
           :: (if nonempty ys then ["LLM Response: " +:+ join ys] else [])
      /\ Forall (fun r => logging.levelno r = logging.INFO)
                (log_records effs).
Proof.
  intros gcs lg0 self prompt content cfg.
  destruct (gemini_call gcs (enable_llm_logging logging.INFO lg0) self
              prompt content cfg) as (effs & E & L & _).
  exists effs. eexists. split; [exact E|]. rewrite L.
  unfold response_log.
  rewrite !info_enabled by apply enable_llm_logging_enables.
  destruct (nonempty _); unfold logging.getMessage; simpl;
    rewrite ?append_nil_r; split; repeat constructor.
Qed.

Lemma isEnabledFor_enable_llm_logging level lg :
  logging.isEnabledFor (enable_llm_logging level lg) logging.INFO
  = if level =? 0 then logging.parent_level lg <=? 20 else level <=? 20.
Proof.
  destruct lg as [name level0 [|h hs] parent];
    unfold logging.isEnabledFor, logging.getEffectiveLevel,
      logging.NOTSET, logging.INFO; simpl;
    destruct (level =? 0); reflexivity.
Qed.

(** X10: what [enable_llm_logging(level)] enables.  The logger handles
    INFO records afterwards exactly when [level] is between 1 and INFO,
    or [level] is NOTSET (0) and the parent chain's effective level is at
    most INFO.  In particular after [enable_llm_logging(level)] with a
    level above INFO (WARNING, say) a whole call on either adapter still
    logs nothing. *)
Theorem enable_above_INFO_logs_nothing :
  forall lg level,
    (logging.isEnabledFor (enable_llm_logging level lg) logging.INFO = true
     <-> (level <> 0 /\ level <= logging.INFO)
         \/ (level = 0 /\ logging.parent_level lg <= logging.INFO))
    /\ (logging.INFO < level ->
        forall generate_content_stream stream_async gself mself
               prompt content cfg,
          (exists effs ys,
              GeminiClient.stream generate_content_stream
                (enable_llm_logging level lg) gself prompt content cfg
              = Some (effs, ys, Returned)
              /\ log_records effs = [])
          /\ (exists effs ys,
                 MistralClient.stream stream_async
                   (enable_llm_logging level lg) mself prompt content cfg
                 = Some (effs, ys, Returned)
                 /\ log_records effs = [])).
Proof.
  intros lg level. rewrite isEnabledFor_enable_llm_logging.
  unfold logging.INFO. split.
  - destruct (Z.eqb_spec level 0) as [->|N].
    + rewrite Z.leb_le. split; [intros H; right; now split|].
      intros [[N _]|[_ H]]; [congruence | exact H].
    + rewrite Z.leb_le. split; [intros H; left; now split|].
      intros [[_ H]|[Z0 _]]; [exact H | congruence].
  - intros Hlt gcs sa gself mself prompt content cfg.
    assert (D : logging.isEnabledFor (enable_llm_logging level lg)
                  logging.INFO = false).
    { rewrite isEnabledFor_enable_llm_logging.
      destruct (Z.eqb_spec level 0) as [->|N]; [lia|].
      apply Z.leb_gt. exact Hlt. }
    split.
    + destruct (gemini_log_events gcs (enable_llm_logging level lg) gself
                  prompt content cfg) as (effs & ys & E & Off & _).
      exists effs, ys. split; [exact E | exact (Off D)].
    + destruct (mistral_log_events sa (enable_llm_logging level lg) mself
                  prompt content cfg) as (effs & ys & E & Off & _).
      exists effs, ys. split; [exact E | exact (Off D)].
Qed.

Lemma enable_above_INFO_logs_nothing_witness :
  logging.INFO < logging.WARNING
  /\ exists effs ys,
       GeminiClient.stream (fun _ => [text_chunk "Hi"])
         (enable_llm_logging logging.WARNING (logger logging.WARNING))
         (GeminiClient.mk "k" GeminiClient.default_model_name)
         "Summarise" "page" None
       = Some (effs, ys, Returned)
       /\ log_records effs = [].
Proof.
  split; [reflexivity|].
  exact (proj1 (proj2 (enable_above_INFO_logs_nothing
                         (logger logging.WARNING) logging.WARNING)
                  eq_refl (fun _ => [text_chunk "Hi"]) (fun _ => [])
                  (GeminiClient.mk "k" GeminiClient.default_model_name)
                  (MistralClient.mk "k") "Summarise" "page" None)).
Defined.

Lemma enable_repeatedly_snoc levels lvl lg :
  enable_repeatedly (levels ++ [lvl]) lg
  = enable_llm_logging lvl (enable_repeatedly levels lg).
Proof. unfold enable_repeatedly. now rewrite fold_left_app. Qed.

Lemma enable_repeatedly_keeps_handlers levels : forall lg h hs,
  logging.handlers lg = h :: hs ->
  logging.handlers (enable_repeatedly levels lg) = h :: hs.
Proof.
  induction levels as [|lvl levels IH]; intros lg h hs H; [exact H|].
  simpl. apply IH. now rewrite enable_llm_logging_handlers, H.
Qed.

(** X11: [enable_llm_logging] on any logger, called any number of times
    (at least once).  The level is the one of the last call.  Handlers
    that were attached before are kept as they are, and then no console
    handler is added; only a logger without handlers gets the console
    handler, once.  Name and parent are untouched. *)
Theorem enable_repeatedly_level_and_handlers :
  forall lg levels lvl,
    logging.level (enable_repeatedly (levels ++ [lvl]) lg) = lvl
    /\ logging.handlers (enable_repeatedly (levels ++ [lvl]) lg)
       = match logging.handlers lg with
         | [] => [console_handler]
         | h :: hs => h :: hs
         end
    /\ logging.name (enable_repeatedly (levels ++ [lvl]) lg)
       = logging.name lg
    /\ logging.parent_level (enable_repeatedly (levels ++ [lvl]) lg)
       = logging.parent_level lg.
Proof.
  intros lg levels lvl. split; [|split; [|split]].
  - rewrite enable_repeatedly_snoc.
    destruct (enable_repeatedly levels lg) as [n l [|h hs] p]; reflexivity.
  - destruct (logging.handlers lg) as [|h hs] eqn:H.
    + destruct (levels ++ [lvl]) as [|l0 ls] eqn:E.
      * now destruct levels.
      * simpl. apply enable_repeatedly_keeps_one.
        now rewrite enable_llm_logging_handlers, H.
    + now apply enable_repeatedly_keeps_handlers.
  - generalize (levels ++ [lvl]). intros ls. revert lg.
    induction ls as [|l0 ls IH]; intros lg; [reflexivity|].
    simpl. rewrite IH. destruct lg as [n l [|h hs] p]; reflexivity.
  - generalize (levels ++ [lvl]). intros ls. revert lg.
    induction ls as [|l0 ls IH]; intros lg; [reflexivity|].
    simpl. rewrite IH. destruct lg as [n l [|h hs] p]; reflexivity.
Qed.

(* ------------------------------------------------------------------ *)
(** ** More on backend selection *)

(** X12: what [get_default_client] can return.  A client it returns
    always holds a non-empty key, equal to the value of its vendor's
    environment variable.  A primary adapter is returned only when the
    primary library was imported (so the RuntimeError of its constructor
    is out of reach) and it has the default model; a secondary adapter is
    returned only when the primary one was not available. *)
Theorem returned_client_key :
  forall environ genai_imported client flag,
    get_default_client environ genai_imported = Ok (Some client, flag) ->
    match client with
    | Gemini c =>
        genai_imported = true
        /\ environ !! "GEMINI_API_KEY" = Some (GeminiClient.api_key c)
        /\ GeminiClient.api_key c <> ""
        /\ GeminiClient.model_name c = GeminiClient.default_model_name
    | Mistral c =>
        environ !! "MISTRAL_API_KEY" = Some (MistralClient.api_key c)
        /\ MistralClient.api_key c <> ""
        /\ (truthy_opt (environ !! "GEMINI_API_KEY") && genai_imported
            = false)
    end.
Proof.
  intros environ genai_imported client flag H.
  destruct (get_default_client_cases environ genai_imported)
    as [(key & G & T & I & E)|[(key & P & M & T & E)|(_ & _ & E)]];
    rewrite E in H; try discriminate; injection H as <- <-; simpl.
  - repeat split; try assumption. now apply truthy_true.
  - repeat split; try assumption. now apply truthy_true.
Qed.

Lemma returned_client_key_witness :
  ({[ "GEMINI_API_KEY" := "g"; "MISTRAL_API_KEY" := "m" ]}
     : gmap string string) !! "MISTRAL_API_KEY"
  = Some (MistralClient.api_key (MistralClient.mk "m"))
  /\ MistralClient.api_key (MistralClient.mk "m") <> ""
  /\ (truthy_opt
        (({[ "GEMINI_API_KEY" := "g"; "MISTRAL_API_KEY" := "m" ]}
            : gmap string string) !! "GEMINI_API_KEY") && false
      = false).
Proof.
  exact (returned_client_key
           {[ "GEMINI_API_KEY" := "g"; "MISTRAL_API_KEY" := "m" ]} false
           (Mistral (MistralClient.mk "m")) true eq_refl).
Defined.

(* ------------------------------------------------------------------ *)
(** ** The command-line entry point *)

Lemma outputs_of_effects (eff : list effect) :
  stdout_of (map Effect eff) = []
  /\ stderr_of (map Effect eff) = []
  /\ effects_of (map Effect eff) = eff.
Proof.
  induction eff as [|e eff (IO & IE & IF)]; [repeat split|].
  unfold stdout_of, stderr_of, effects_of in *.
  repeat split; [exact IO | exact IE |].
  change (omap ?f (map Effect (e :: eff)))
    with (e :: omap f (map Effect eff)).
  now rewrite IF.
Qed.

Lemma outputs_of_yield (eff : list effect) (text : string)
    (outs : list output) :
  stdout_of (map Effect eff ++ Stdout text :: outs) = text :: stdout_of outs
  /\ stderr_of (map Effect eff ++ Stdout text :: outs) = stderr_of outs
  /\ effects_of (map Effect eff ++ Stdout text :: outs)
     = eff ++ effects_of outs.
Proof.
  destruct (outputs_of_effects eff) as (O & R & F).
  unfold stdout_of, stderr_of, effects_of in *.
  rewrite !omap_app, O, R, F. repeat split.
Qed.

Section CliFacts.

Variable generate_content_stream :
  genai.Request -> list genai.GenerateContentResponse.
Variable stream_async :
  mistralai.Request -> list mistralai.CompletionEvent.
Variable lg : logging.Logger.

Lemma cli_drain_inl n : forall g,
  drain (Cli.anext generate_content_stream stream_async lg) n (inl g)
  = drain (GeminiClient.anext generate_content_stream lg) n g.
Proof.
  induction n as [|n IH]; intros g; [reflexivity|].
  rewrite !drain_S. simpl Cli.anext.
  destruct (GeminiClient.anext generate_content_stream lg g)
    as [[eff [text| |e]] g']; try reflexivity.
  now rewrite IH.
Qed.

Lemma cli_drain_inr n : forall m,
  drain (Cli.anext generate_content_stream stream_async lg) n (inr m)
  = drain (MistralClient.anext stream_async lg) n m.
Proof.
  induction n as [|n IH]; intros m; [reflexivity|].
  rewrite !drain_S. simpl Cli.anext.
  destruct (MistralClient.anext stream_async lg m)
    as [[eff [text| |e]] m']; try reflexivity.
  now rewrite IH.
Qed.

(** The script's loop prints exactly what a consumer collects, between
    the effects of the generator. *)
Lemma main_loop_of_drain n : forall st effs ys o,
  drain (Cli.anext generate_content_stream stream_async lg) n st
  = Some (effs, ys, o) ->
  exists outs,
    Cli._main generate_content_stream stream_async lg n st = Some (outs, o)
    /\ stdout_of outs = ys
    /\ stderr_of outs = []
    /\ effects_of outs = effs.
Proof.
  induction n as [|n IH]; intros st effs ys o; [discriminate|].
  rewrite drain_S. simpl Cli._main.
  destruct (Cli.anext generate_content_stream stream_async lg st)
    as [[eff [text| |e]] st'].
  - destruct (drain _ n st') as [[[eff' ys'] o']|] eqn:D; [|discriminate].
    intros [= <- <- <-].
    destruct (IH _ _ _ _ D) as (outs & -> & O & R & F).
    destruct (outputs_of_yield eff text outs) as (O1 & R1 & F1).
    eexists. split; [reflexivity|].
    now rewrite O1, R1, F1, O, R, F.
  - intros [= <- <- <-]. eexists. split; [reflexivity|].
    apply outputs_of_effects.
  - intros [= <- <- <-]. eexists. split; [reflexivity|].
    apply outputs_of_effects.
Qed.

Lemma cli_run_gemini (c : GeminiClient.t) (prompt : string) :
  let st := Cli.LLMClient_stream (Gemini c) prompt "" in
  exists outs,
    Cli._main generate_content_stream stream_async lg
      (Cli.fuel generate_content_stream stream_async st) st
    = Some (outs, Returned)
    /\ stdout_of outs
       = GeminiClient.fragments
           (generate_content_stream (GeminiClient.request c prompt "" None))
    /\ stderr_of outs = []
    /\ log_records (effects_of outs)
       = logging.info lg "LLM Prompt: %s" [prompt]
         ++ response_log lg
              (GeminiClient.fragments
                 (generate_content_stream
                    (GeminiClient.request c prompt "" None)))
    /\ submitted (effects_of outs) = [prompt].
Proof.
  intros st.
  destruct (gemini_call generate_content_stream lg c prompt "" None)
    as (effs & E & L & S).
  unfold GeminiClient.stream in E. rewrite <- cli_drain_inl in E.
  destruct (main_loop_of_drain _ _ _ _ _ E) as (outs & M & O & R & F).
  exists outs. rewrite F. repeat split; assumption.
Qed.

Lemma cli_run_mistral (c : MistralClient.t) (prompt : string) :
  let st := Cli.LLMClient_stream (Mistral c) prompt "" in
  let frs :=
    MistralClient.fragments
      (stream_async (MistralClient.request c prompt "" None)) in
  exists outs,
    Cli._main generate_content_stream stream_async lg
      (Cli.fuel generate_content_stream stream_async st) st
    = Some (outs, Returned)
    /\ stdout_of outs = frs ++ [join frs]
    /\ stderr_of outs = []
    /\ log_records (effects_of outs)
       = logging.info lg "LLM data has run" [] ++ response_log lg frs
    /\ submitted (effects_of outs) = [prompt].
Proof.
  intros st frs.
  destruct (mistral_call stream_async lg c prompt "" None)
    as (effs & E & L & S).
  unfold MistralClient.stream in E. rewrite <- cli_drain_inr in E.
  destruct (main_loop_of_drain _ _ _ _ _ E) as (outs & M & O & R & F).
  exists outs. rewrite F. repeat split; assumption.
Qed.

End CliFacts.

Lemma response_log_disabled lg collected :
  logging.isEnabledFor lg logging.INFO = false ->
  response_log lg collected = [].
Proof.
  intros D. unfold response_log.
  destruct (nonempty collected); [now apply info_disabled | reflexivity].
Qed.

Lemma main_with_gemini generate_content_stream stream_async
    environ genai_imported root_level prompt key :
  get_default_client environ genai_imported
  = Ok (Some (Gemini (GeminiClient.mk key GeminiClient.default_model_name)),
        true) ->
  exists outs,
    Cli.main generate_content_stream stream_async environ genai_imported
      root_level prompt
    = Some (outs, Exit 0)
    /\ stdout_of outs
       = GeminiClient.fragments
           (generate_content_stream
              (GeminiClient.request
                 (GeminiClient.mk key GeminiClient.default_model_name)
                 prompt "" None))
    /\ stderr_of outs = []
    /\ log_records (effects_of outs) = []
    /\ submitted (effects_of outs) = [prompt].
Proof.
  intros E.
  pose proof (cli_run_gemini generate_content_stream stream_async
                (logger root_level)
                (GeminiClient.mk key GeminiClient.default_model_name)
                prompt) as H.
  cbv zeta in H. destruct H as (outs & M & O & R & L & S).
  exists outs. unfold Cli.main. rewrite E. cbv zeta. rewrite M.
  repeat split; try assumption.
  rewrite L, info_disabled, response_log_disabled;
    auto using logger_disabled_by_default.
Qed.

Lemma main_with_mistral generate_content_stream stream_async
    environ genai_imported root_level prompt key :
  get_default_client environ genai_imported
  = Ok (Some (Mistral (MistralClient.mk key)), true) ->
  exists outs,
    Cli.main generate_content_stream stream_async environ genai_imported
      root_level prompt
    = Some (outs, Exit 0)
    /\ stdout_of outs
       = MistralClient.fragments
           (stream_async
              (MistralClient.request (MistralClient.mk key) prompt "" None))
         ++ [join (MistralClient.fragments
                     (stream_async
                        (MistralClient.request (MistralClient.mk key)
                           prompt "" None)))]
    /\ stderr_of outs = []
    /\ log_records (effects_of outs) = []
    /\ submitted (effects_of outs) = [prompt].
Proof.
  intros E.
  pose proof (cli_run_mistral generate_content_stream stream_async
                (logger root_level) (MistralClient.mk key) prompt) as H.
  cbv zeta in H. destruct H as (outs & M & O & R & L & S).
  exists outs. unfold Cli.main. rewrite E. cbv zeta. rewrite M.
  repeat split; try assumption.
  rewrite L, info_disabled, response_log_disabled;
    auto using logger_disabled_by_default.
Qed.

(** X13: how the script ends.  When no backend can be selected (no
    non-empty GEMINI_API_KEY with the primary library imported, and no
    non-empty MISTRAL_API_KEY) it writes the one error line to stderr,
    contacts no vendor and exits with status 1.  Otherwise it runs to the
    end with status 0, writes nothing to stderr, submits one request
    whose composed content is exactly the prompt (the script passes an
    empty [content]), and hands no record to the logging handlers. *)
Theorem cli_exit_status :
  forall generate_content_stream stream_async environ genai_imported
         root_level prompt,
    let primary :=
      truthy_opt (getenv environ "GEMINI_API_KEY") && genai_imported in
    let secondary := truthy_opt (getenv environ "MISTRAL_API_KEY") in
    (primary = false -> secondary = false ->
     Cli.main generate_content_stream stream_async environ genai_imported
       root_level prompt
     = Some ([Stderr
                "Error: GEMINI_API_KEY not set or google-genai unavailable"],
             Exit 1))
    /\ (primary || secondary = true ->
        exists outs,
          Cli.main generate_content_stream stream_async environ
            genai_imported root_level prompt
          = Some (outs, Exit 0)
          /\ stderr_of outs = []
          /\ submitted (effects_of outs) = [prompt]
          /\ log_records (effects_of outs) = []).
Proof.
  intros gcs sa environ genai_imported root_level prompt primary secondary.
  subst primary secondary.
  destruct (get_default_client_cases environ genai_imported)
    as [(key & G & T & I & E)|[(key & P & M & T & E)|(P & S & E)]].
  - rewrite G. simpl truthy_opt. rewrite T, I. simpl. split; [discriminate|].
    intros _.
    destruct (main_with_gemini gcs sa environ genai_imported root_level
                prompt key E) as (outs & Mn & _ & R & L & Sb).
    rewrite I in Mn. now exists outs.
  - rewrite P, M. simpl truthy_opt. rewrite T. simpl.
    split; [discriminate|]. intros _.
    destruct (main_with_mistral gcs sa environ genai_imported root_level
                prompt key E) as (outs & Mn & _ & R & L & Sb).
    now exists outs.
  - rewrite P, S. simpl. split; [|discriminate].
    intros _ _. unfold Cli.main. now rewrite E.
Qed.

Lemma cli_exit_status_witness :
  Cli.main (fun _ => [text_chunk "Hi"]) (fun _ => [delta_chunk "Hi"])
    {[ "GEMINI_API_KEY" := "g" ]} false logging.WARNING "Summarise"
  = Some ([Stderr
             "Error: GEMINI_API_KEY not set or google-genai unavailable"],
          Exit 1)
  /\ exists outs,
       Cli.main (fun _ => [text_chunk "Hi"]) (fun _ => [delta_chunk "Hi"])
         {[ "MISTRAL_API_KEY" := "m" ]} false logging.WARNING "Summarise"
       = Some (outs, Exit 0)
       /\ stderr_of outs = []
       /\ submitted (effects_of outs) = ["Summarise"]
       /\ log_records (effects_of outs) = [].
Proof.
  split.
  - exact (proj1 (cli_exit_status (fun _ => [text_chunk "Hi"])
                    (fun _ => [delta_chunk "Hi"])
                    {[ "GEMINI_API_KEY" := "g" ]} false logging.WARNING
                    "Summarise") eq_refl eq_refl).
  - exact (proj2 (cli_exit_status (fun _ => [text_chunk "Hi"])
                    (fun _ => [delta_chunk "Hi"])
                    {[ "MISTRAL_API_KEY" := "m" ]} false logging.WARNING
                    "Summarise") eq_refl).
Defined.

(** X14: what the script prints with the primary backend.  When
    GEMINI_API_KEY is non-empty and the primary library is imported, the
    script's own prints to stdout are exactly the fragments of the
    vendor's stream for the request (default model, default generation
    configuration, contents = the prompt), in stream order. *)
Theorem cli_prints_gemini_fragments :
  forall generate_content_stream stream_async environ genai_imported
         root_level prompt,
    truthy_opt (getenv environ "GEMINI_API_KEY") && genai_imported = true ->
    exists key outs,
      environ !! "GEMINI_API_KEY" = Some key
      /\ Cli.main generate_content_stream stream_async environ
           genai_imported root_level prompt
         = Some (outs, Exit 0)
      /\ stdout_of outs
         = GeminiClient.fragments
             (generate_content_stream
                {| genai.model := GeminiClient.default_model_name;
                   genai.contents := prompt;
                   genai.config := GeminiClient.default_generation_config |}).
Proof.
  intros gcs sa environ genai_imported root_level prompt H.
  destruct (get_default_client_cases environ genai_imported)
    as [(key & G & T & I & E)|[(key & P & _)|(P & _)]];
    try congruence.
  destruct (main_with_gemini gcs sa environ genai_imported root_level
              prompt key E) as (outs & Mn & O & _).
  exists key, outs. repeat split; assumption.
Qed.

Lemma cli_prints_gemini_fragments_witness :
  exists key outs,
    ({[ "GEMINI_API_KEY" := "g" ]} : gmap string string)
      !! "GEMINI_API_KEY" = Some key
    /\ Cli.main (fun _ => [text_chunk "Hel"; no_candidates; text_chunk "lo"])
         (fun _ => []) {[ "GEMINI_API_KEY" := "g" ]} true
         logging.WARNING "Summarise"
       = Some (outs, Exit 0)
    /\ stdout_of outs
       = GeminiClient.fragments
           ((fun _ => [text_chunk "Hel"; no_candidates; text_chunk "lo"])
              {| genai.model := GeminiClient.default_model_name;
                 genai.contents := "Summarise";
                 genai.config := GeminiClient.default_generation_config |}).
Proof.
  exact (cli_prints_gemini_fragments
           (fun _ => [text_chunk "Hel"; no_candidates; text_chunk "lo"])
           (fun _ => []) {[ "GEMINI_API_KEY" := "g" ]} true
           logging.WARNING "Summarise" eq_refl).
Defined.

(** X15: what the script prints with the secondary backend.  When the
    primary backend is not available and MISTRAL_API_KEY is non-empty,
    the script's own prints to stdout are the incremental fragments and
    then their concatenation once more: the text it prints is the
    response twice. *)
Theorem cli_prints_mistral_response_twice :
  forall generate_content_stream stream_async environ genai_imported
         root_level prompt,
    truthy_opt (getenv environ "GEMINI_API_KEY") && genai_imported = false ->
    truthy_opt (getenv environ "MISTRAL_API_KEY") = true ->
    exists key outs,
      environ !! "MISTRAL_API_KEY" = Some key
      /\ Cli.main generate_content_stream stream_async environ
           genai_imported root_level prompt
         = Some (outs, Exit 0)
      /\ removelast (stdout_of outs)
         = MistralClient.fragments
             (stream_async
                (MistralClient.request (MistralClient.mk key) prompt ""
                   None))
      /\ join (stdout_of outs)
         = join (removelast (stdout_of outs))
           +:+ join (removelast (stdout_of outs)).
Proof.
  intros gcs sa environ genai_imported root_level prompt HP HS.
  destruct (get_default_client_cases environ genai_imported)
    as [(key & G & T & I & E)|[(key & P & M & T & E)|(P & S & E)]].
  - rewrite G, I in HP. simpl in HP. rewrite T in HP. discriminate.
  - destruct (main_with_mistral gcs sa environ genai_imported root_level
                prompt key E) as (outs & Mn & O & _).
    exists key, outs. rewrite O, removelast_last, join_app.
    repeat split; assumption.
  - congruence.
Qed.

Lemma cli_prints_mistral_response_twice_witness :
  exists key outs,
    ({[ "MISTRAL_API_KEY" := "m" ]} : gmap string string)
      !! "MISTRAL_API_KEY" = Some key
    /\ Cli.main (fun _ => [])
         (fun _ => [delta_chunk "Hel"; delta_chunk "lo"])
         {[ "MISTRAL_API_KEY" := "m" ]} true logging.WARNING "Summarise"
       = Some (outs, Exit 0)
    /\ removelast (stdout_of outs)
       = MistralClient.fragments
           ((fun _ => [delta_chunk "Hel"; delta_chunk "lo"])
              (MistralClient.request (MistralClient.mk key) "Summarise" ""
                 None))
    /\ join (stdout_of outs)
       = join (removelast (stdout_of outs))
         +:+ join (removelast (stdout_of outs)).
Proof.
  exact (cli_prints_mistral_response_twice (fun _ => [])
           (fun _ => [delta_chunk "Hel"; delta_chunk "lo"])
           {[ "MISTRAL_API_KEY" := "m" ]} true logging.WARNING "Summarise"
           eq_refl eq_refl).
Defined.

(* ------------------------------------------------------------------ *)
(** ** More on request composition *)

Lemma length_append (a b : string) :
  String.length (a +:+ b) = (String.length a + String.length b)%nat.
Proof. induction a as [|c a IH]; simpl; [reflexivity | now rewrite IH]. Qed.

Lemma prefix_append (a b : string) : String.prefix a (a +:+ b) = true.
Proof.
  induction a as [|c a IH]; simpl.
  - now destruct b.
  - destruct (ascii_dec c c); [exact IH | congruence].
Qed.

(** X16: the composed content always begins with the prompt, whatever the
    prompt (empty included); it is the prompt alone exactly when
    [content] is empty, and otherwise it is longer than the prompt by the
    two line feeds and the content. *)
Theorem user_content_shape :
  forall prompt content,
    String.prefix prompt (user_content prompt content) = true
    /\ (user_content prompt content = prompt <-> content = "")
    /\ String.length (user_content prompt content)
       = (String.length prompt
          + if truthy content then 2 + String.length content else 0)%nat.
Proof.
  intros prompt content. unfold user_content.
  destruct content as [|c content]; simpl truthy; cbv iota.
  - split; [|split].
    + rewrite <- (append_nil_r prompt) at 2. apply prefix_append.
    + split; reflexivity.
    + lia.
  - split; [apply prefix_append|]. split.
    + split; [|discriminate]. intros H.
      apply (f_equal String.length) in H.
      rewrite !length_append in H. simpl in H. lia.
    + rewrite !length_append. simpl. lia.
Qed.

(* ------------------------------------------------------------------ *)
(** ** Resumptions of the secondary adapter's generator *)

Lemma log_records_printed_one chunk : log_records (printed chunk) = [].
Proof. destruct (printed_cases chunk) as [[t ->]|[e ->]]; reflexivity. Qed.

Lemma mistral_fragments_cons_None c chunks :
  MistralClient.fragment c = None ->
  MistralClient.fragments (c :: chunks) = MistralClient.fragments chunks.
Proof.
  intros F. unfold MistralClient.fragments.
  change (omap MistralClient.fragment (c :: chunks))
    with (match MistralClient.fragment c with
          | Some y => y :: omap MistralClient.fragment chunks
          | None => omap MistralClient.fragment chunks
          end).
  now rewrite F.
Qed.

Lemma mistral_loop_inversion lg chunks : forall collected eff r st',
  MistralClient.loop lg chunks collected = (eff, r, st') ->
  exists text,
    r = Yield text
    /\ ((log_records eff = []
         /\ exists skipped chunk rest,
              chunks = skipped ++ chunk :: rest
              /\ MistralClient.fragments skipped = []
              /\ MistralClient.fragment chunk = Some text
              /\ st' = MistralClient.Suspended rest (collected ++ [text]))
        \/ (MistralClient.fragments chunks = []
            /\ text = join collected
            /\ log_records eff = response_log lg collected
            /\ st' = MistralClient.Final)).
Proof.
  induction chunks as [|c rest IH]; intros collected eff r st' L.
  - simpl in L. injection L as <- <- <-.
    exists (join collected). split; [reflexivity|]. right.
    repeat split. apply log_records_Log.
  - destruct (MistralClient.fragment c) as [text|] eqn:F.
    + rewrite (mistral_loop_yield lg c rest collected text F) in L.
      injection L as <- <- <-. exists text. split; [reflexivity|]. left.
      split; [apply log_records_printed_one|].
      exists [], c, rest. repeat split. exact F.
    + rewrite (mistral_loop_skip lg c rest collected F) in L.
      destruct (MistralClient.loop lg rest collected)
        as [[eff0 r0] st0] eqn:L0.
      injection L as <- <- <-.
      destruct (IH _ _ _ _ L0) as (text & -> & H).
      exists text. split; [reflexivity|].
      rewrite log_records_app, log_records_printed_one, app_nil_l.
      destruct H as [(E0 & skipped & chunk & rest' & -> & S & F' & ->)
                    |(S & -> & E0 & ->)].
      * left. split; [exact E0|].
        exists (c :: skipped), chunk, rest'. repeat split; try assumption.
        now rewrite mistral_fragments_cons_None.
      * right. repeat split; try assumption.
        now rewrite mistral_fragments_cons_None.
Qed.

(** X17: what a resumption of the secondary adapter's generator after a
    [yield] in the loop can do: it always yields, never stops and never
    raises.  Either the fragment is the delta content of the first
    remaining chunk that has one, that chunk and the ones before it are
    consumed, the fragment is appended to [collected], and nothing is
    logged; or no remaining chunk has content, the fragment is the
    concatenation of what was collected, the "LLM Response" record (if
    any) is logged now, and the generator is at its last [yield]. *)
Theorem mistral_resumption_inversion :
  forall stream_async lg chunks collected eff r st',
    MistralClient.anext stream_async lg
      (MistralClient.Suspended chunks collected) = (eff, r, st') ->
    exists text,
      r = Yield text
      /\ ((log_records eff = []
           /\ exists skipped chunk rest,
                chunks = skipped ++ chunk :: rest
                /\ MistralClient.fragments skipped = []
                /\ MistralClient.extract_content chunk = Ok (Some text)
                /\ st' = MistralClient.Suspended rest (collected ++ [text]))
          \/ (MistralClient.fragments chunks = []
              /\ text = join collected
              /\ log_records eff = response_log lg collected
              /\ st' = MistralClient.Final)).
Proof.
  intros sa lg chunks collected eff r st' A.
  destruct (mistral_loop_inversion lg chunks _ _ _ _ A) as (text & R & H).
  exists text. split; [exact R|].
  destruct H as [(E0 & skipped & chunk & rest & C & S & F & T)|H];
    [left | right; exact H].
  split; [exact E0|]. exists skipped, chunk, rest.
  apply mistral_fragment_Some in F. repeat split; assumption.
Qed.

Lemma mistral_resumption_inversion_witness :
  exists text,
    Yield "Hello" = Yield text
    /\ ((log_records
           [Print_event_received no_choices; Print_error IndexError;
            Log {| logging.logger_name := "spegel.llm";
                   logging.levelno := logging.INFO;
                   logging.msg := "LLM Response: %s";
                   logging.args := ["Hello"] |}] = []
         /\ exists skipped chunk rest,
              [no_choices] = skipped ++ chunk :: rest
              /\ MistralClient.fragments skipped = []
              /\ MistralClient.extract_content chunk = Ok (Some text)
              /\ MistralClient.Final
                 = MistralClient.Suspended rest (["Hel"; "lo"] ++ [text]))
        \/ (MistralClient.fragments [no_choices] = []
            /\ text = join ["Hel"; "lo"]
            /\ log_records
                 [Print_event_received no_choices; Print_error IndexError;
                  Log {| logging.logger_name := "spegel.llm";
                         logging.levelno := logging.INFO;
                         logging.msg := "LLM Response: %s";
                         logging.args := ["Hello"] |}]
               = response_log
                   (enable_llm_logging logging.INFO (logger logging.WARNING))
                   ["Hel"; "lo"]
            /\ MistralClient.Final = MistralClient.Final)).
Proof.
  exact (mistral_resumption_inversion (fun _ => [])
           (enable_llm_logging logging.INFO (logger logging.WARNING))
           [no_choices] ["Hel"; "lo"] _ _ _ eq_refl).
Defined.
